(** * Leave-request lifecycle of the hostel backend

    A shallow embedding of the parent controller ([reviewLeave],
    [calculateDistance], the statistics of [getChildStats]), of the admin
    controller ([leaveAdminApprove], [assignParentToStudent],
    [removeParentFromStudent], the deletions and the lookups by id), of the
    user model's [pre("deleteOne")] hook and of the functions of the two
    schemas, with the Mongoose collections as finite maps and the request
    handlers as programs of a state-and-exception monad. *)

From Stdlib Require Import Floats.PrimFloat.
From Stdlib Require Import ZArith.
From stdpp Require Import gmap strings list fin_maps.

Local Open Scope string_scope.
Set Warnings "-inexact-float".

(** ** JavaScript numbers

    A JavaScript [number] is an IEEE-754 binary64 value, which is what
    [PrimFloat.float] is.  The arithmetic operators are the primitive ones;
    the functions of the [Math] object and the exponentiation operator are
    implementation-approximated by the language standard, so the runtime
    that provides them is an interface. *)

Definition number : Set := float.

Class JsMath : Type := {
  Math_sin : number -> number;
  Math_cos : number -> number;
  Math_atan2 : number -> number -> number;
  Math_sqrt : number -> number;
  (** the [**] operator *)
  js_pow : number -> number -> number;
}.

(** [Math.PI], the binary64 value nearest to pi. *)
Definition Math_PI : number := 0x1.921fb54442d18p+1%float.

(** Reading an array element; a missing element is [undefined], which every
    arithmetic operator turns into [NaN]. *)
Definition js_index (a : list number) (i : nat) : number := nth i a nan.

Section GeoDistance.
Context {rt : JsMath}.

Definition deg2rad (deg : number) : number :=
  (deg * (Math_PI / 180))%float.

(** The haversine distance in kilometres between two [[longitude,
    latitude]] arrays in degrees.  It is a total function: an array that
    is too short, a NaN or an infinity gives a number all the same (NaN,
    for a runtime that propagates it).  Its value is the binary64
    evaluation of the formula with the runtime's functions; nothing is
    proved here about how close that is to the formula over the reals. *)
Definition calculateDistance (coords1 coords2 : list number) : number :=
  let lon1 := js_index coords1 0 in
  let lat1 := js_index coords1 1 in
  let lon2 := js_index coords2 0 in
  let lat2 := js_index coords2 1 in
  let R := 6371%float in
  let dLat := deg2rad (lat2 - lat1)%float in
  let dLon := deg2rad (lon2 - lon1)%float in
  let a :=
    (js_pow (Math_sin (dLat / 2)) 2 +
     Math_cos (deg2rad lat1) *
     Math_cos (deg2rad lat2) *
     js_pow (Math_sin (dLon / 2)) 2)%float in
  let c := (2 * Math_atan2 (Math_sqrt a) (Math_sqrt (1 - a)))%float in
  (R * c)%float.

End GeoDistance.
#[global] Arguments calculateDistance {rt} coords1 coords2 : simpl never.

(** A runtime to execute the model with: correctly rounded square root,
    squaring by one multiplication, and truncated power series for the
    trigonometric functions (adequate for arguments within a quarter turn,
    which is all that the examples use). *)
Module ReferenceRuntime.
Local Open Scope float_scope.

Definition sin_series (x : float) : float :=
  let t := x * x in
  x * (1 - t / 6 * (1 - t / 20 * (1 - t / 42 * (1 - t / 72 *
      (1 - t / 110 * (1 - t / 156 * (1 - t / 210 * (1 - t / 272)))))))).

Definition cos_series (x : float) : float :=
  let t := x * x in
  1 - t / 2 * (1 - t / 12 * (1 - t / 30 * (1 - t / 56 * (1 - t / 90 *
      (1 - t / 132 * (1 - t / 182 * (1 - t / 240 * (1 - t / 306)))))))).

(** arctangent near zero *)
Definition atan_series (x : float) : float :=
  let t := x * x in
  x * (1 - t * (1 / 3 - t * (1 / 5 - t * (1 / 7 - t * (1 / 9 -
      t * (1 / 11 - t * (1 / 13 - t * (1 / 15 - t * (1 / 17))))))))).

(** [atan x = 2 * atan (x / (1 + sqrt (1 + x^2)))] *)
Definition halve (x : float) : float := x / (1 + sqrt (1 + x * x)).

(** arctangent on the unit interval *)
Definition atan_unit (x : float) : float :=
  8 * atan_series (halve (halve (halve x))).

Definition atan_nonneg (x : float) : float :=
  if 1 <? x then Math_PI / 2 - atan_unit (1 / x) else atan_unit x.

Definition atan (x : float) : float :=
  if x <? 0 then - atan_nonneg (- x) else atan_nonneg x.

Definition atan2 (y x : float) : float :=
  if 0 <? x then atan (y / x)
  else if x <? 0 then
    (if y <? 0 then atan (y / x) - Math_PI else atan (y / x) + Math_PI)
  else if 0 <? y then Math_PI / 2
  else if y <? 0 then - (Math_PI / 2)
  else y.

#[export] Instance reference_math : JsMath := {|
  Math_sin := sin_series;
  Math_cos := cos_series;
  Math_atan2 := atan2;
  Math_sqrt := sqrt;
  js_pow := fun x _ => x * x;
|}.

End ReferenceRuntime.

(** ** Documents *)

(** An [ObjectId] as its hexadecimal string: what [toHexString] gives, 24
    digits in lower case.  The documents of a collection are keyed by the
    [ObjectId] in [_id], and a reference to a document holds one. *)
Abbreviation ObjectId := string (only parsing).

(** A [Date], in milliseconds. *)
Abbreviation Date := Z (only parsing).

(** The enum [["pending", "approved", "rejected"]] of [reviewSchema.status]
    and [leaveSchema.status]. *)
Inductive Status : Set := pending | approved | rejected.

#[export] Instance Status_eq_dec : EqDecision Status.
Proof. solve_decision. Defined.

(** [s === t] on statuses *)
Definition Status_eqb (s t : Status) : bool :=
  match s, t with
  | pending, pending | approved, approved | rejected, rejected => true
  | _, _ => false
  end.

(** [reviewSchema] *)
Module Review.
Record t : Set := mk {
    status : Status;
    remarks : string;
    reviewedBy : option ObjectId;
    reviewedAt : option Date;
  }.
End Review.

(** What the property [coordinates] of a location object holds. *)
Inductive JsCoordinates : Set :=
| coords_missing                      (* no such property *)
| coords_not_array                    (* a value that is not an array *)
| coords_array (a : list number).     (* typed [number[]] *)

(** A value in the place of an [IGeoLocation]: the request body's
    [currentParentLocation] or a leave's [leaveLocation]. *)
Inductive JsLocation : Set :=
| loc_falsy                           (* [undefined], [null], ... *)
| loc_not_object                      (* a truthy primitive *)
| loc_object (coordinates : JsCoordinates).

(** [leaveSchema] *)
Module Leave.
Record t : Set := mk {
    studentId : ObjectId;
    startDate : Date;
    endDate : Date;
    reason : string;
    leaveType : string;
    contactNumber : string;
    parentContact : string;
    address : string;
    status : Status;
    parentReview : option Review.t;
    staffReview : option Review.t;
    leaveLocation : JsLocation;
  }.

Definition set_status (s : Status) (l : t) : t :=
    mk (studentId l) (startDate l) (endDate l) (reason l) (leaveType l)
       (contactNumber l) (parentContact l) (address l)
       s (parentReview l) (staffReview l) (leaveLocation l).

Definition set_parentReview (r : option Review.t) (l : t) : t :=
    mk (studentId l) (startDate l) (endDate l) (reason l) (leaveType l)
       (contactNumber l) (parentContact l) (address l)
       (status l) r (staffReview l) (leaveLocation l).

Definition set_staffReview (r : option Review.t) (l : t) : t :=
    mk (studentId l) (startDate l) (endDate l) (reason l) (leaveType l)
       (contactNumber l) (parentContact l) (address l)
       (status l) (parentReview l) r (leaveLocation l).

Definition set_leaveLocation (g : JsLocation) (l : t) : t :=
    mk (studentId l) (startDate l) (endDate l) (reason l) (leaveType l)
       (contactNumber l) (parentContact l) (address l)
       (status l) (parentReview l) (staffReview l) g.
End Leave.

(** The enum of [userSchema.role]. *)
Module Role.
Inductive t : Set := admin | student | staff | parent.

#[export] Instance eq_dec : EqDecision t.
Proof. solve_decision. Defined.

Definition eqb (r s : t) : bool :=
  match r, s with
  | admin, admin | student, student | staff, staff | parent, parent => true
  | _, _ => false
  end.
End Role.
Export (hints) Role.

(** [userSchema], without the credentials and the profile picture. *)
Module User.
Record t : Set := mk {
    email : string;
    firstName : string;
    lastName : string;
    role : Role.t;
    roomNumber : option string;
    parentId : option ObjectId;
    children : list ObjectId;
  }.

Definition set_parentId (p : option ObjectId) (u : t) : t :=
    mk (email u) (firstName u) (lastName u) (role u) (roomNumber u)
       p (children u).

Definition set_children (c : list ObjectId) (u : t) : t :=
    mk (email u) (firstName u) (lastName u) (role u) (roomNumber u)
       (parentId u) c.
End User.

(** Modelled from the spec: the Complaint schema
    ([models/complaints.model]) is not among the sources; the spec says
    only that a complaint is owned by a student.  A complaint document is
    kept as its reference-valued paths, by path name, so that a filter
    [{ path: id }] can be evaluated whatever the owning path is called. *)
Abbreviation Complaint := (gmap string string) (only parsing).

(** ** The database *)

Record Db : Type := mkDb {
  users : gmap string User.t;
  leaves : gmap string Leave.t;
  complaints : gmap string Complaint;
}.

(** The state of the transaction of a driver session.  Writes made with
    [{ session }] go to the transaction's view of the database and are
    published by the commit. *)
Inductive Transaction : Type :=
| NO_TRANSACTION
| TRANSACTION_IN_PROGRESS (view : Db)
| TRANSACTION_COMMITTED
| TRANSACTION_ABORTED.

Record World : Type := mkWorld {
  db : Db;
  session : Transaction;
}.

(** ** Call sites, errors and responses *)

(** A place of the source, by file and line: an awaited database call or
    a [new ObjectId(...)]. *)
Inductive Site : Set :=
| parent_controller (line : nat)
| admin_controller (line : nat)
| user_model (line : nat).

Inductive Error : Set :=
| CastError                          (* a malformed id in a query filter *)
| BSONError                          (* a malformed id given to [new ObjectId] *)
| MongoTransactionError (msg : string)
| MongoNetworkError (s : Site)       (* the call at [s] failed *)
| JsError (msg : string).            (* [new Error(msg)] *)

Inductive Payload : Set :=
| no_payload
| leave_payload (leave : Leave.t)
| user_payload (user : option User.t)
| error_payload (error : string).

(** [res.status(statusCode).json({ message, ... })] *)
Record Response : Set := mkResponse {
  statusCode : nat;
  message : string;
  payload : Payload;
}.

Definition json (code : nat) (msg : string) : Response :=
  mkResponse code msg no_payload.

(** ** The environment of a request *)

Class Env : Type := {
  env_math :: JsMath;
  (** [mongoose.Types.ObjectId.isValid]: the strings that [new ObjectId]
      and the cast of an [_id] accept *)
  ObjectId_isValid : string -> bool;
  (** [new ObjectId(s).toHexString()] for a valid [s]: the id that the
      string [s] stands for.  Different spellings stand for the same id;
      the digits of a hexadecimal string are read in either case. *)
  ObjectId_hex : string -> ObjectId;
  (** the id that [new ObjectId(undefined)] generates at a place of the
      source in this run *)
  ObjectId_generate : Site -> ObjectId;
  (** the [message] of an error that a library raises; the wording is the
      library's and changes with its version *)
  library_message : Error -> string;
  (** [new Date()] *)
  Date_now : Date;
  (** which database calls fail *)
  fails : Site -> bool;
  (** the paths that the Complaint schema declares *)
  Complaint_paths : list string;
  (** Mongoose's [strictQuery] option: a filter on an undeclared path is
      dropped from the query *)
  strictQuery : bool;
}.

(** A run in which no database call fails. *)
Definition Reliable (env : Env) : Prop := forall s, fails s = false.

(** [error.message] *)
Definition error_message {env : Env} (e : Error) : string :=
  match e with
  | MongoTransactionError msg => msg
  | JsError msg => msg
  | e => library_message e
  end.

(** ** The monad of a request handler

    A handler is a state transformer over the [World] whose statements
    complete normally, leave the handler by sending a response
    ([return res.status(...).json(...)]) or throw. *)

Inductive Outcome (A : Type) : Type :=
| Next (a : A)
| Return (r : Response)
| Throw (e : Error).
Arguments Next {A} a.
Arguments Return {A} r.
Arguments Throw {A} e.

Definition M (A : Type) : Type := World -> Outcome A * World.

Definition ret {A : Type} (a : A) : M A := fun w => (Next a, w).

Definition bind {A B : Type} (m : M A) (k : A -> M B) : M B :=
  fun w =>
    match m w with
    | (Next a, w') => k a w'
    | (Return r, w') => (Return r, w')
    | (Throw e, w') => (Throw e, w')
    end.

Definition respond {A : Type} (r : Response) : M A := fun w => (Return r, w).

Definition throw {A : Type} (e : Error) : M A := fun w => (Throw e, w).

(** [try { body } catch (e) { handler e }] *)
Definition try_catch {A : Type} (body : M A) (handler : Error -> M A) : M A :=
  fun w =>
    match body w with
    | (Throw e, w') => handler e w'
    | r => r
    end.

(** [try { body } finally { fin }]: when [fin] completes normally the
    outcome of [body] stands. *)
Definition finally {A : Type} (body : M A) (fin : M unit) : M A :=
  fun w =>
    let (o, w') := body w in
    match fin w' with
    | (Next _, w'') => (o, w'')
    | (Return r, w'') => (Return r, w'')
    | (Throw e, w'') => (Throw e, w'')
    end.

Declare Scope handler_scope.
Delimit Scope handler_scope with handler.
Notation "x <- m ;; k" := (bind m (fun x => k))
  (at level 100, m at next level, right associativity) : handler_scope.
Notation "m ;; k" := (bind m (fun _ => k))
  (at level 100, right associativity) : handler_scope.
Local Open Scope handler_scope.

(** What the client of a handler observes: the response, if one was sent
    (a handler that throws rejects without responding), and the world. *)
Definition run (h : M unit) (w : World) : option Response * World :=
  match h w with
  | (Return r, w') => (Some r, w')
  | (_, w') => (None, w')
  end.

Definition get_db : M Db := fun w => (Next (db w), w).

Definition put_db (d : Db) : M unit :=
  fun w => (Next tt, mkWorld d (session w)).

Definition get_session : M Transaction := fun w => (Next (session w), w).

Definition put_session (t : Transaction) : M unit :=
  fun w => (Next tt, mkWorld (db w) t).

(** ** JavaScript values in the request *)

(** [!x] for a string that may be [undefined] *)
Definition js_not (x : option string) : bool :=
  match x with
  | None => true
  | Some s => String.eqb s ""
  end.

(** [x === s] *)
Definition js_eq (x : option string) (s : string) : bool :=
  match x with
  | None => false
  | Some y => String.eqb y s
  end.

(** [list.includes(x)] *)
Definition includes (l : list string) (x : option string) : bool :=
  existsb (js_eq x) l.

(** [!g] *)
Definition loc_not (g : JsLocation) : bool :=
  match g with
  | loc_falsy => true
  | _ => false
  end.

(** [typeof g === "object"], for a truthy [g] *)
Definition typeof_object (g : JsLocation) : bool :=
  match g with
  | loc_object _ => true
  | _ => false
  end.

(** ["coordinates" in g] *)
Definition has_coordinates (g : JsLocation) : bool :=
  match g with
  | loc_object coords_missing => false
  | loc_object _ => true
  | _ => false
  end.

(** [g.coordinates] *)
Definition coordinates_of (g : JsLocation) : JsCoordinates :=
  match g with
  | loc_object c => c
  | _ => coords_missing
  end.

Definition Array_isArray (c : JsCoordinates) : bool :=
  match c with
  | coords_array _ => true
  | _ => false
  end.

(** [c.length], of an array *)
Definition coords_length (c : JsCoordinates) : nat :=
  match c with
  | coords_array a => length a
  | _ => 0
  end.

(** the array passed to [calculateDistance] *)
Definition coords_elements (c : JsCoordinates) : list number :=
  match c with
  | coords_array a => a
  | _ => []
  end.

(** the truthiness of a value that is an [ObjectId] or [undefined] *)
Definition is_Some_b {A : Type} (x : option A) : bool :=
  match x with
  | Some _ => true
  | None => false
  end.

(** [$addToSet] *)
Definition addToSet (x : string) (l : list string) : list string :=
  if bool_decide (x ∈ l) then l else l ++ [x].

(** ** Mongoose and driver operations *)

(** What the document that Mongoose builds from a stored leave holds at
    [leaveLocation].  The path is nested in the schema, so the document
    has an object there also when nothing is stored, and the array path
    [coordinates] has the default [[]]. *)
Definition hydrate_location (g : JsLocation) : JsLocation :=
  match g with
  | loc_falsy | loc_object coords_missing => loc_object (coords_array [])
  | _ => g
  end.

(** The document that a query returns for the stored leave [l]. *)
Definition Leave_hydrate (l : Leave.t) : Leave.t :=
  Leave.set_leaveLocation (hydrate_location (Leave.leaveLocation l)) l.
#[global] Arguments Leave_hydrate l : simpl never.

Section Mongoose.
Context {env : Env}.

(** An awaited database call: it fails where the environment says so. *)
Definition await {A : Type} (s : Site) (op : M A) : M A :=
  fun w => if fails s then (Throw (MongoNetworkError s), w) else op w.

(** The cast of a string to an [ObjectId], in a query filter or in an
    update: the id that the string stands for. *)
Definition cast_ObjectId (id : string) : M ObjectId :=
  if ObjectId_isValid id then ret (ObjectId_hex id) else throw CastError.

(** [new mongoose.Types.ObjectId(id)] at the place [s] *)
Definition ObjectId_new (s : Site) (id : option string) : M ObjectId :=
  match id with
  | None => ret (ObjectId_generate s)
  | Some id =>
      if ObjectId_isValid id then ret (ObjectId_hex id) else throw BSONError
  end.


(** [User.findOne({ _id: id, role: r })] *)
Definition User_findOne (s : Site) (id : string) (r : Role.t)
  : M (option User.t) :=
  await s (
    oid <- cast_ObjectId id ;;
    d <- get_db ;;
    ret (match users d !! oid with
         | Some u => if Role.eqb (User.role u) r then Some u else None
         | None => None
         end)).

(** [User.findById(id)] *)
Definition User_findById (s : Site) (id : string) : M (option User.t) :=
  await s (
    oid <- cast_ObjectId id ;;
    d <- get_db ;;
    ret (users d !! oid)).

(** [User.findByIdAndUpdate(id, update, { session })]: inside a
    transaction the write goes to the transaction's view. *)
Definition User_findByIdAndUpdate (s : Site) (id : string)
    (update : User.t -> User.t) : M unit :=
  await s (
    oid <- cast_ObjectId id ;;
    t <- get_session ;;
    match t with
    | TRANSACTION_IN_PROGRESS v =>
        put_session (TRANSACTION_IN_PROGRESS
          (mkDb (alter update oid (users v)) (leaves v) (complaints v)))
    | _ =>
        d <- get_db ;;
        put_db (mkDb (alter update oid (users d)) (leaves d) (complaints d))
    end).

(** [Leave.findOne({ _id: id, studentId: { $in: children } })] *)
Definition Leave_findOne (s : Site) (id : string) (children : list ObjectId)
  : M (option Leave.t) :=
  await s (
    oid <- cast_ObjectId id ;;
    d <- get_db ;;
    ret (match leaves d !! oid with
         | Some l =>
             if bool_decide (Leave.studentId l ∈ children)
             then Some (Leave_hydrate l) else None
         | None => None
         end)).

(** [Leave.findById(id)] *)
Definition Leave_findById (s : Site) (id : string) : M (option Leave.t) :=
  await s (
    oid <- cast_ObjectId id ;;
    d <- get_db ;;
    ret (match leaves d !! oid with
         | Some l => Some (Leave_hydrate l)
         | None => None
         end)).

(** [leave.save()] of the document with [_id] [id].  The schema's
    validators accept every document that [reviewLeave] saves, and the
    paths that it has not assigned are as they were read. *)
Definition Leave_save (s : Site) (id : ObjectId) (l : Leave.t) : M unit :=
  await s (
    d <- get_db ;;
    put_db (mkDb (users d) (<[id := l]> (leaves d)) (complaints d))).

(** [Leave.findOneAndUpdate({ _id: id }, { $set: ... }, { new: true })] *)
Definition Leave_findOneAndUpdate (s : Site) (id : string)
    (update : Leave.t -> Leave.t) : M (option Leave.t) :=
  await s (
    oid <- cast_ObjectId id ;;
    d <- get_db ;;
    put_db (mkDb (users d) (alter update oid (leaves d)) (complaints d)) ;;
    ret (match leaves d !! oid with
         | Some l => Some (Leave_hydrate (update l))
         | None => None
         end)).

(** [Leave.deleteMany({ studentId: sid })] *)
Definition Leave_deleteMany (s : Site) (sid : ObjectId) : M unit :=
  await s (
    d <- get_db ;;
    put_db (mkDb (users d)
              (filter (fun kv => Leave.studentId kv.2 ≠ sid) (leaves d))
              (complaints d))).

(** The complaints that a filter [{ path: id }] selects: those holding
    [id] at [path]; under [strictQuery] a path that the schema does not
    declare is dropped from the filter, which then selects everything. *)
Definition Complaint_matches (path : string) (id : ObjectId)
    (c : Complaint) : Prop :=
  if strictQuery && negb (bool_decide (path ∈ Complaint_paths))
  then True
  else c !! path = Some id.

#[export] Instance Complaint_matches_dec path id c :
  Decision (Complaint_matches path id c).
Proof. unfold Complaint_matches. destruct (_ && _); apply _. Defined.

(** [Complaint.deleteMany({ [path]: id })] *)
Definition Complaint_deleteMany (s : Site) (path : string) (id : ObjectId)
  : M unit :=
  await s (
    d <- get_db ;;
    put_db (mkDb (users d) (leaves d)
              (filter (fun kv => ¬ Complaint_matches path id kv.2)
                 (complaints d)))).

(** [userSchema.pre("deleteOne", { document: true, query: false }, ...)];
    [next(error)] makes the [deleteOne] reject with the error. *)
Definition userSchema_pre_deleteOne (this_id : ObjectId) : M unit :=
  try_catch
    (Leave_deleteMany (user_model 233) this_id ;;
     Complaint_deleteMany (user_model 234) "studentId" this_id)
    (fun error => throw error).

(** [user.deleteOne()] on the document with [_id] [id]: the hook, then the
    removal. *)
Definition User_deleteOne (s : Site) (id : ObjectId) : M unit :=
  userSchema_pre_deleteOne id ;;
  await s (
    d <- get_db ;;
    put_db (mkDb (delete id (users d)) (leaves d) (complaints d))).

(** [mongoose.startSession()] *)
Definition startSession (s : Site) : M unit :=
  await s (put_session NO_TRANSACTION).

(** [session.startTransaction()] *)
Definition startTransaction : M unit :=
  t <- get_session ;;
  match t with
  | TRANSACTION_IN_PROGRESS _ =>
      throw (MongoTransactionError "Transaction already in progress")
  | _ => d <- get_db ;; put_session (TRANSACTION_IN_PROGRESS d)
  end.

(** [session.commitTransaction()] *)
Definition commitTransaction (s : Site) : M unit :=
  await s (
    t <- get_session ;;
    match t with
    | TRANSACTION_IN_PROGRESS v =>
        put_db v ;; put_session TRANSACTION_COMMITTED
    | NO_TRANSACTION =>
        throw (MongoTransactionError "No transaction started")
    | TRANSACTION_COMMITTED => ret tt
    | TRANSACTION_ABORTED =>
        throw (MongoTransactionError
                 "Cannot call commitTransaction after calling abortTransaction")
    end).

(** [session.abortTransaction()] *)
Definition abortTransaction : M unit :=
  t <- get_session ;;
  match t with
  | TRANSACTION_IN_PROGRESS _ => put_session TRANSACTION_ABORTED
  | NO_TRANSACTION =>
      throw (MongoTransactionError "No transaction started")
  | TRANSACTION_COMMITTED =>
      throw (MongoTransactionError
               "Cannot call abortTransaction after calling commitTransaction")
  | TRANSACTION_ABORTED =>
      throw (MongoTransactionError "Cannot call abortTransaction twice")
  end.

(** [session.endSession()]: a transaction still in progress is aborted. *)
Definition endSession : M unit :=
  t <- get_session ;;
  match t with
  | TRANSACTION_IN_PROGRESS _ => put_session TRANSACTION_ABORTED
  | _ => ret tt
  end.

End Mongoose.

(** ** The controllers *)

Section Controllers.
Context {env : Env}.

(** The [status] that a reviewer's [action] stands for. *)
Definition action_status (action : option string) : Status :=
  if js_eq action "approve" then approved else rejected.

(** The template literal [`Leave ${action}ed ...`]. *)
Definition action_ed (action : option string) (tail : string) : string :=
  "Leave " ++ default "undefined" action ++ "ed " ++ tail.

(** [leave.staffReview?.status === "approved"] *)
Definition staff_approved (leave : Leave.t) : bool :=
  match Leave.staffReview leave with
  | Some r => Status_eqb (Review.status r) approved
  | None => false
  end.

(** [reviewLeave] of the parent controller; [parentId] is [req.user?._id],
    [leaveId] is [req.params.leaveId] and the rest is the request body.
    The [_id] of the leave that was found is [ObjectId_hex leaveId]. *)
Definition reviewLeave (parentId : option string) (leaveId : string)
    (action remarks : option string) (currentParentLocation : JsLocation)
  : M unit :=
  try_catch
    (if js_not parentId then respond (json 401 "Unauthorized") else
     let parentId := default "" parentId in
     if negb (includes ["approve"; "reject"] action)
     then respond (json 400 "Invalid action") else
     parent <- User_findOne (parent_controller 260) parentId Role.parent ;;
     match parent with
     | None => respond (json 404 "Parent not found")
     | Some parent =>
     leave <- Leave_findOne (parent_controller 265) leaveId
                (User.children parent) ;;
     match leave with
     | None => respond (json 404 "Leave not found or unauthorized")
     | Some leave =>
     if loc_not currentParentLocation
        || negb (typeof_object currentParentLocation)
        || negb (has_coordinates currentParentLocation)
        || negb (Array_isArray (coordinates_of currentParentLocation))
        || negb (Nat.eqb (coords_length (coordinates_of currentParentLocation)) 2)
     then respond (json 400
            "Real-time parent location data is missing or invalid") else
     let parentRealTimeLocation := currentParentLocation in
     if loc_not (Leave.leaveLocation leave)
        || negb (typeof_object (Leave.leaveLocation leave))
        || negb (has_coordinates (Leave.leaveLocation leave))
     then respond (json 400 "Leave location data is missing or invalid") else
     let leaveLocation := Leave.leaveLocation leave in
     if negb (Array_isArray (coordinates_of leaveLocation))
        || negb (Nat.eqb (coords_length (coordinates_of leaveLocation)) 2)
     then respond (json 400
            "Leave location coordinates are missing or invalid") else
     let distance :=
       calculateDistance
         (coords_elements (coordinates_of parentRealTimeLocation))
         (coords_elements (coordinates_of leaveLocation)) in
     let restrictedRadius := 5%float in
     if (distance <? restrictedRadius)%float && js_eq action "approve"
     then respond (json 400
            "Approval not allowed. Parent is within the restricted radius of the leave location.")
     else
     if negb (Status_eqb (Leave.status leave) pending)
     then respond (json 400 "Leave already reviewed") else
     reviewedBy <- ObjectId_new (parent_controller 322) (Some parentId) ;;
     let leave :=
       Leave.set_parentReview
         (Some (Review.mk (action_status action) (default "" remarks)
                  (Some reviewedBy) (Some Date_now))) leave in
     let leave :=
       if staff_approved leave && js_eq action "approve"
       then Leave.set_status approved leave
       else if js_eq action "reject"
       then Leave.set_status rejected leave
       else Leave.set_status pending leave in
     Leave_save (parent_controller 334) (ObjectId_hex leaveId) leave ;;
     leave <-
       (if Status_eqb (Leave.status leave) approved
           || Status_eqb (Leave.status leave) rejected
        then
          let leave := Leave.set_leaveLocation loc_falsy leave in
          Leave_save (parent_controller 337) (ObjectId_hex leaveId) leave ;;
          ret leave
        else ret leave) ;;
     respond (mkResponse 200 (action_ed action "by parent")
                (leave_payload leave))
     end
     end)
    (fun error => respond (json 500 "Failed to review leave")).

(** The [$set] of [leaveAdminApprove]. *)
Definition admin_set (action : option string) (staffBy parentBy : ObjectId)
    (l : Leave.t) : Leave.t :=
  Leave.set_parentReview
    (Some (Review.mk (action_status action) "Approved by admin"
             (Some parentBy) (Some Date_now)))
    (Leave.set_staffReview
       (Some (Review.mk (action_status action) "Approved by admin"
                (Some staffBy) (Some Date_now)))
       (Leave.set_status (action_status action) l)).

(** [leaveAdminApprove] of the admin controller; [adminId] is
    [req.user?._id]. *)
Definition leaveAdminApprove (adminId : option string) (leaveId : string)
    (action : option string) : M unit :=
  try_catch
    (if negb (includes ["approve"; "reject"] action)
     then respond (json 400 "Invalid action") else
     if negb (ObjectId_isValid leaveId)
     then respond (json 400 "Invalid leave ID") else
     leave <- Leave_findById (admin_controller 724) leaveId ;;
     match leave with
     | None => respond (json 404 "Leave not found")
     | Some _ =>
       try_catch
         (staffBy <- ObjectId_new (admin_controller 740) adminId ;;
          parentBy <- ObjectId_new (admin_controller 745) adminId ;;
          updatedLeave <-
            Leave_findOneAndUpdate (admin_controller 732) leaveId
              (admin_set action staffBy parentBy) ;;
          match updatedLeave with
          | None => throw (JsError "Failed to update leave")
          | Some updatedLeave =>
              respond (mkResponse 200 (action_ed action "successfully")
                         (leave_payload updatedLeave))
          end)
         (fun saveError =>
            respond (mkResponse 500 "Failed to save leave review"
                       (error_payload (error_message saveError))))
     end)
    (fun error =>
       respond (mkResponse 500 "Failed to review leave"
                  (error_payload (error_message error)))).

(** [assignParentToStudent] of the admin controller, on the request body's
    [studentId] and [parentId]; the updates cast the two strings to the
    ids that they stand for. *)
Definition assignParentToStudent (studentId parentId : option string)
  : M unit :=
  startSession (admin_controller 43) ;;
  startTransaction ;;
  finally
    (try_catch
       (if js_not studentId || js_not parentId
        then respond (json 400 "Both studentId and parentId are required")
        else
        let studentId := default "" studentId in
        let parentId := default "" parentId in
        student <- User_findOne (admin_controller 57) studentId
                     Role.student ;;
        parent <- User_findOne (admin_controller 62) parentId Role.parent ;;
        match student, parent with
        | Some student, Some parent =>
            if is_Some_b (User.parentId student)
            then respond (json 400 "Student already has a parent assigned")
            else
            try_catch
              (User_findByIdAndUpdate (admin_controller 84) studentId
                 (User.set_parentId (Some (ObjectId_hex parentId))) ;;
               User_findByIdAndUpdate (admin_controller 91) parentId
                 (fun p => User.set_children
                             (addToSet (ObjectId_hex studentId)
                                (User.children p)) p) ;;
               commitTransaction (admin_controller 99) ;;
               updatedStudent <-
                 User_findById (admin_controller 102) studentId ;;
               respond (mkResponse 200
                          "Student successfully assigned to parent"
                          (user_payload updatedStudent)))
              (fun error => abortTransaction ;; throw error)
        | _, _ =>
            respond (json 404 "Student or parent not found or invalid roles")
        end)
       (fun error =>
          abortTransaction ;;
          respond (mkResponse 500 "Error assigning student to parent"
                     (error_payload (error_message error)))))
    endSession.

(** [deleteStudent] of the admin controller; [id] is [req.params.id] and
    [student_id] is [student._id]. *)
Definition deleteStudent (id : string) : M unit :=
  try_catch
    (student <- User_findOne (admin_controller 541) id Role.student ;;
     match student with
     | None => respond (json 404 "student not found")
     | Some student =>
         let student_id := ObjectId_hex id in
         Leave_deleteMany (admin_controller 549) student_id ;;
         Complaint_deleteMany (admin_controller 552) "student" student_id ;;
         User_deleteOne (admin_controller 555) student_id ;;
         respond (json 200 "student deleted successfully")
     end)
    (fun error =>
       respond (mkResponse 500 "Error deleting student"
                  (error_payload (error_message error)))).

End Controllers.

(** ** A concrete environment and database, to run the handlers on *)

Module Example.
Import ReferenceRuntime.

Definition hex (c : Ascii.ascii) : bool :=
  let n := Ascii.nat_of_ascii c in
  (Nat.leb 48 n && Nat.leb n 57) || (Nat.leb 97 n && Nat.leb n 102)
  || (Nat.leb 65 n && Nat.leb n 70).

(** a string of 24 hexadecimal digits *)
Definition isValid (s : string) : bool :=
  Nat.eqb (String.length s) 24 && forallb hex (String.list_ascii_of_string s).

(** the digits of a hexadecimal string, in lower case *)
Definition lower (c : Ascii.ascii) : Ascii.ascii :=
  let n := Ascii.nat_of_ascii c in
  if Nat.leb 65 n && Nat.leb n 70 then Ascii.ascii_of_nat (n + 32) else c.

Definition toHexString (s : string) : string :=
  String.string_of_list_ascii (map lower (String.list_ascii_of_string s)).

(** the ids that [new ObjectId()] generates, by place *)
Definition generate (s : Site) : string :=
  match s with
  | admin_controller 740 => "ffffffffffffffffffffff01"
  | admin_controller 745 => "ffffffffffffffffffffff02"
  | _ => "ffffffffffffffffffffff00"
  end.

(** short texts in the place of the libraries' messages *)
Definition messages (e : Error) : string :=
  match e with
  | CastError => "Cast to ObjectId failed"
  | BSONError => "input must be a 24 character hex string"
  | MongoNetworkError _ => "connection closed"
  | MongoTransactionError msg | JsError msg => msg
  end.

Definition environment (failing : Site -> bool) : Env := {|
  env_math := reference_math;
  ObjectId_isValid := isValid;
  ObjectId_hex := toHexString;
  ObjectId_generate := generate;
  library_message := messages;
  Date_now := 1700000000000%Z;
  fails := failing;
  Complaint_paths := ["student"; "description"; "status"];
  strictQuery := false;
|}.

Definition no_failure : Site -> bool := fun _ => false.

(** the environment of the examples *)
Definition reliable : Env := environment no_failure.

(** the call at line [n] of the admin controller fails *)
Definition admin_line_fails (n : nat) : Site -> bool :=
  fun s =>
    match s with
    | admin_controller m => Nat.eqb m n
    | _ => false
    end.

Definition asha_id : string := "64b7f0a1c2d3e4f5a6b7c801".
Definition ravi_id : string := "64b7f0a1c2d3e4f5a6b7c802".
Definition meera_id : string := "64b7f0a1c2d3e4f5a6b7c803".
Definition root_id : string := "64b7f0a1c2d3e4f5a6b7c804".
Definition kiran_id : string := "64b7f0a1c2d3e4f5a6b7c805".
Definition leave1_id : string := "64b7f0a1c2d3e4f5a6b7c811".
Definition leave2_id : string := "64b7f0a1c2d3e4f5a6b7c812".
Definition leave3_id : string := "64b7f0a1c2d3e4f5a6b7c813".
Definition leave4_id : string := "64b7f0a1c2d3e4f5a6b7c814".

(** a student linked to the parent [meera] *)
Definition asha : User.t :=
  User.mk "asha@example.org" "Asha" "Rao" Role.student (Some "B-12")
    (Some meera_id) [].

(** a student without a parent *)
Definition ravi : User.t :=
  User.mk "ravi@example.org" "Ravi" "Iyer" Role.student (Some "B-14")
    None [].

Definition meera : User.t :=
  User.mk "meera@example.org" "Meera" "Rao" Role.parent None None [asha_id].

Definition root : User.t :=
  User.mk "root@example.org" "Root" "Admin" Role.admin None None [].

Definition kiran : User.t :=
  User.mk "kiran@example.org" "Kiran" "Das" Role.staff None None [].

Definition home : JsLocation :=
  loc_object (coords_array [77.5946; 12.9716]%float).

(** about 1.5 km from [home] *)
Definition near_home : JsLocation :=
  loc_object (coords_array [77.6046; 12.9816]%float).

(** about 845 km from [home] *)
Definition far_from_home : JsLocation :=
  loc_object (coords_array [72.8777; 19.076]%float).

Definition unreviewed : Review.t := Review.mk pending "" None None.

Definition approved_by_staff : Review.t :=
  Review.mk approved "ok" (Some kiran_id) (Some 1690000000000%Z).

Definition approved_by_admin : Review.t :=
  Review.mk approved "Approved by admin" (Some root_id)
    (Some 1690000000000%Z).

(** a pending leave of [asha] that nobody has reviewed *)
Definition leave1 : Leave.t :=
  Leave.mk asha_id 1700100000000 1700200000000 "family function" "regular"
    "" "" "" pending (Some unreviewed) (Some unreviewed) home.

(** a pending leave of [asha] that staff has approved *)
Definition leave2 : Leave.t :=
  Leave.mk asha_id 1700300000000 1700400000000 "festival" "regular"
    "" "" "" pending (Some unreviewed) (Some approved_by_staff) home.

(** a leave of [asha] that the parent has rejected: terminal, and its
    location cleared *)
Definition leave3 : Leave.t :=
  Leave.mk asha_id 1700500000000 1700600000000 "trip" "regular"
    "" "" "" rejected
    (Some (Review.mk rejected "no" (Some meera_id) (Some 1690000000000%Z)))
    (Some unreviewed) loc_falsy.

(** a leave of [asha] that an admin has approved *)
Definition leave4 : Leave.t :=
  Leave.mk asha_id 1700700000000 1700800000000 "exam break" "regular"
    "" "" "" approved (Some approved_by_admin) (Some approved_by_admin) home.

Definition database : Db := {|
  users := <[asha_id := asha]> (<[ravi_id := ravi]> (<[meera_id := meera]>
             (<[root_id := root]> (<[kiran_id := kiran]> ∅))));
  leaves := <[leave1_id := leave1]> (<[leave2_id := leave2]>
              (<[leave3_id := leave3]> (<[leave4_id := leave4]> ∅)));
  complaints := <["64b7f0a1c2d3e4f5a6b7c821" := {[ "student" := asha_id ]}]>
                  (<["64b7f0a1c2d3e4f5a6b7c822" := {[ "student" := ravi_id ]}]>
                     ∅);
|}.

Definition world : World := mkWorld database NO_TRANSACTION.

End Example.

(** ** Vocabulary of the statements *)

Definition geofence_refusal : Response :=
  json 400
    "Approval not allowed. Parent is within the restricted radius of the leave location.".

Definition already_reviewed : Response := json 400 "Leave already reviewed".

(** The three responses of [reviewLeave] that reject a location. *)
Definition location_errors : list Response :=
  [ json 400 "Real-time parent location data is missing or invalid";
    json 400 "Leave location data is missing or invalid";
    json 400 "Leave location coordinates are missing or invalid" ].

(** A location object with a [coordinates] array of two elements. *)
Definition well_formed (g : JsLocation) : bool :=
  match g with
  | loc_object (coords_array a) => Nat.eqb (length a) 2
  | _ => false
  end.

(** The arguments of [calculateDistance] in [reviewLeave]. *)
Definition coords (g : JsLocation) : list number :=
  coords_elements (coordinates_of g).

(** The database after the handler [h] has run in [w]. *)
Definition after (h : M unit) (w : World) : Db := db (snd (run h w)).

(** [Terminal s]: the status is approved or rejected. *)
Definition Terminal (s : Status) : Prop := s = approved \/ s = rejected.

(** The leaves [l] and [l'] hold the same request: they agree on every
    field that the student has filled in. *)
Definition same_request (l l' : Leave.t) : Prop :=
  Leave.studentId l' = Leave.studentId l /\
  Leave.startDate l' = Leave.startDate l /\
  Leave.endDate l' = Leave.endDate l /\
  Leave.reason l' = Leave.reason l /\
  Leave.leaveType l' = Leave.leaveType l /\
  Leave.contactNumber l' = Leave.contactNumber l /\
  Leave.parentContact l' = Leave.parentContact l /\
  Leave.address l' = Leave.address l.

(** The users [u] and [u'] have the same profile: they agree on every
    field but the link to a parent and the links to children. *)
Definition same_profile (u u' : User.t) : Prop :=
  User.email u' = User.email u /\
  User.firstName u' = User.firstName u /\
  User.lastName u' = User.lastName u /\
  User.role u' = User.role u /\
  User.roomNumber u' = User.roomNumber u.

(** Invariant I1 on one leave: the location is there exactly while the
    leave is pending. *)
Definition I1 (l : Leave.t) : Prop :=
  loc_not (Leave.leaveLocation l) = false <-> Leave.status l = pending.

Section Statements.
Context {env : Env}.

(** The request of the parent [pid] on the leave [lid] passes the checks
    that precede the location checks of [reviewLeave]: the caller's id is
    the id of a stored parent [p], and [l] is the leave stored under the
    id of the request, a leave of one of [p]'s children. *)
Record Reviewable (w : World) (pid lid : string) (p : User.t) (l : Leave.t)
  : Prop := mkReviewable {
  rv_truthy : pid <> "";
  rv_pid : ObjectId_isValid pid = true;
  rv_parent : users (db w) !! ObjectId_hex pid = Some p;
  rv_role : User.role p = Role.parent;
  rv_lid : ObjectId_isValid lid = true;
  rv_leave : leaves (db w) !! ObjectId_hex lid = Some l;
  rv_child : Leave.studentId l ∈ User.children p;
}.

(** The student and the parent that the strings [sid] and [pid] stand for
    can be linked in [d]: both are stored with their roles and the student
    has no parent yet. *)
Definition Assignable (d : Db) (sid pid : string) (s p : User.t) : Prop :=
  ObjectId_isValid sid = true /\ ObjectId_isValid pid = true /\
  sid <> "" /\ pid <> "" /\
  users d !! ObjectId_hex sid = Some s /\ User.role s = Role.student /\
  User.parentId s = None /\
  users d !! ObjectId_hex pid = Some p /\ User.role p = Role.parent.

(** The two writes of [assignParentToStudent], on the student with the id
    [sid] and the parent with the id [pid]. *)
Definition linked (d : Db) (sid pid : ObjectId) : Db :=
  mkDb (alter (fun p => User.set_children (addToSet sid (User.children p)) p)
          pid (alter (User.set_parentId (Some pid)) sid (users d)))
       (leaves d) (complaints d).

(** A complaint refers to the student [sid], under either name that the
    sources give to the owning path. *)
Definition refers_to (c : Complaint) (sid : string) : Prop :=
  c !! "student" = Some sid \/ c !! "studentId" = Some sid.

End Statements.

(** ** Symbolic execution of handlers *)

Ltac unfold_handler :=
  unfold run, reviewLeave, leaveAdminApprove, assignParentToStudent,
    deleteStudent, User_deleteOne, userSchema_pre_deleteOne,
    User_findOne, User_findById, User_findByIdAndUpdate,
    Leave_findOne, Leave_findById, Leave_save, Leave_findOneAndUpdate,
    Leave_deleteMany, Complaint_deleteMany,
    startSession, startTransaction, commitTransaction, abortTransaction,
    endSession, ObjectId_new, cast_ObjectId, await,
    try_catch, finally, bind, get_db, put_db, get_session, put_session,
    ret, respond, throw.

(** Case analysis on a scrutinee that contains no other case analysis. *)
Ltac case_innermost :=
  match goal with
  | |- context [match ?x with _ => _ end] =>
      lazymatch x with
      | context [match _ with _ => _ end] => fail
      | _ => destruct x eqn:?
      end
  end.

Ltac exec := repeat first [ progress cbn | case_innermost ].

(** ** The other handlers of the admin controller *)

Section MoreMongoose.
Context {env : Env}.

(** [User.updateOne({ _id: id }, update)], outside a transaction; [id] is
    an [ObjectId] already. *)
Definition User_updateOne (s : Site) (id : ObjectId)
    (update : User.t -> User.t) : M unit :=
  await s (
    d <- get_db ;;
    put_db (mkDb (alter update id (users d)) (leaves d) (complaints d))).

(** [User.updateMany({ _id: { $in: ids } }, update)] *)
Definition User_updateMany (s : Site) (ids : list ObjectId)
    (update : User.t -> User.t) : M unit :=
  await s (
    d <- get_db ;;
    put_db (mkDb
              (map_imap (fun k u =>
                 Some (if bool_decide (k ∈ ids) then update u else u))
                 (users d))
              (leaves d) (complaints d))).

(** [user.save()] of the document with [_id] [id] after the assignments
    [modified]: the save writes the modified paths.  A validation error is
    a failure of the call. *)
Definition User_save (s : Site) (id : ObjectId)
    (modified : User.t -> User.t) : M unit :=
  await s (
    d <- get_db ;;
    put_db (mkDb (alter modified id (users d)) (leaves d) (complaints d))).

(** [leave.deleteOne()] on the document with [_id] [id]; the leave schema
    has no hook. *)
Definition Leave_deleteOne (s : Site) (id : ObjectId) : M unit :=
  await s (
    d <- get_db ;;
    put_db (mkDb (users d) (delete id (leaves d)) (complaints d))).

End MoreMongoose.

(** [$pull] *)
Definition pull (x : string) (l : list string) : list string :=
  filter (fun y => y <> x) l.

Section MoreControllers.
Context {env : Env}.

(** [removeParentFromStudent]; [studentId] is [req.params.studentId], which
    the [$pull] casts, and the [_id] of the student that was found is
    [ObjectId_hex studentId]. *)
Definition removeParentFromStudent (studentId : string) : M unit :=
  try_catch
    (student <- User_findOne (admin_controller 133) studentId
                  Role.student ;;
     match student with
     | None => respond (json 404 "Student not found")
     | Some student =>
         match User.parentId student with
         | None =>
             respond (json 400 "Student doesn't have a parent assigned")
         | Some parentId =>
             User_updateOne (admin_controller 149) parentId
               (fun p => User.set_children
                           (pull (ObjectId_hex studentId)
                              (User.children p)) p) ;;
             User_save (admin_controller 156) (ObjectId_hex studentId)
               (User.set_parentId None) ;;
             respond (json 200
                        "Parent-student relationship removed successfully")
         end
     end)
    (fun error =>
       respond (mkResponse 500 "Error removing parent-student relationship"
                  (error_payload (error_message error)))).

(** [deleteParent]; [id] is [req.params.id], and the [_id] of the parent
    that was found is [ObjectId_hex id]. *)
Definition deleteParent (id : string) : M unit :=
  try_catch
    (parent <- User_findOne (admin_controller 319) id Role.parent ;;
     match parent with
     | None => respond (json 404 "Parent not found")
     | Some parent =>
         (if Nat.ltb 0 (length (User.children parent))
          then User_updateMany (admin_controller 329) (User.children parent)
                 (User.set_parentId None)
          else ret tt) ;;
         User_deleteOne (admin_controller 335) (ObjectId_hex id) ;;
         respond (json 200 "Parent deleted successfully")
     end)
    (fun error =>
       respond (mkResponse 500 "Error deleting parent"
                  (error_payload (error_message error)))).

(** [deleteStaff]; [id] is [req.params.id], and the [_id] of the user that
    was found is [ObjectId_hex id]. *)
Definition deleteStaff (id : string) : M unit :=
  try_catch
    (staff <- User_findOne (admin_controller 414) id Role.staff ;;
     match staff with
     | None => respond (json 404 "staff not found")
     | Some staff =>
         User_deleteOne (admin_controller 422) (ObjectId_hex id) ;;
         respond (json 200 "staff deleted successfully")
     end)
    (fun error =>
       respond (mkResponse 500 "Error deleting staff"
                  (error_payload (error_message error)))).

(** [deleteleavebyid]; [Leave.findOne({ _id: id })] is [Leave.findById]. *)
Definition deleteleavebyid (id : string) : M unit :=
  try_catch
    (leave <- Leave_findById (admin_controller 480) id ;;
     match leave with
     | None => respond (json 404 "leave not found")
     | Some leave =>
         Leave_deleteOne (admin_controller 489) (ObjectId_hex id) ;;
         respond (json 200 "leave deleted successfully")
     end)
    (fun error =>
       respond (mkResponse 500 "Error deleting leave"
                  (error_payload (error_message error)))).

(** [getleavesbyId]; the answer of a success has no message, and the
    populated references are left as ids. *)
Definition getleavesbyId (id : string) : M unit :=
  try_catch
    (if String.eqb id ""
     then respond (json 400 "ID parameter is required") else
     leave <- Leave_findById (admin_controller 459) id ;;
     match leave with
     | None => respond (json 404 "Leave not found")
     | Some leave => respond (mkResponse 200 "" (leave_payload leave))
     end)
    (fun error => respond (json 500 "Failed to fetch leave")).

(** [getstudentbyid]: [User.findOne({ _id: id })], with no filter on the
    role; the answer of a success has no message. *)
Definition getstudentbyid (id : string) : M unit :=
  try_catch
    (student <- User_findById (admin_controller 575) id ;;
     match student with
     | None => respond (json 404 "student not found")
     | Some student =>
         respond (mkResponse 200 "" (user_payload (Some student)))
     end)
    (fun error =>
       respond (mkResponse 500 "Error finding student"
                  (error_payload (error_message error)))).

(** [getstaffbyid], likewise *)
Definition getstaffbyid (id : string) : M unit :=
  try_catch
    (staff <- User_findById (admin_controller 630) id ;;
     match staff with
     | None => respond (json 404 "staff not found")
     | Some staff => respond (mkResponse 200 "" (user_payload (Some staff)))
     end)
    (fun error =>
       respond (mkResponse 500 "Error finding staff"
                  (error_payload (error_message error)))).

(** [getParentbyid], likewise *)
Definition getParentbyid (id : string) : M unit :=
  try_catch
    (Parent <- User_findById (admin_controller 687) id ;;
     match Parent with
     | None => respond (json 404 "Parent not found")
     | Some Parent =>
         respond (mkResponse 200 "" (user_payload (Some Parent)))
     end)
    (fun error =>
       respond (mkResponse 500 "Error finding Parent"
                  (error_payload (error_message error)))).

End MoreControllers.

(** Unfolds the handlers above as well. *)
Ltac unfold_more :=
  unfold removeParentFromStudent, deleteParent, deleteStaff,
    deleteleavebyid, getleavesbyId, getstudentbyid, getstaffbyid,
    getParentbyid, User_updateOne, User_updateMany, User_save,
    Leave_deleteOne;
  unfold_handler.

(** The world in which the handler [h] leaves [w]. *)
Definition world_after (h : M unit) (w : World) : World := snd (run h w).

(** An environment in which exactly the calls at the sites [failing]
    fail. *)
Module Scenario.

Definition site_eqb (s t : Site) : bool :=
  match s, t with
  | parent_controller m, parent_controller n
  | admin_controller m, admin_controller n
  | user_model m, user_model n => Nat.eqb m n
  | _, _ => false
  end.

Definition failing_at (failing : list Site) : Env :=
  Example.environment (fun s => existsb (site_eqb s) failing).

End Scenario.

(** ** The functions of the schemas *)

(** [required] of [leaveLocation.coordinates] in the leave schema *)
Definition leaveSchema_coordinates_required (this : Leave.t) : bool :=
  Status_eqb (Leave.status this) pending.

(** [validate.validator] of [parentId] in the user schema *)
Definition userSchema_parentId_validator (this : User.t)
    (value : option ObjectId) : bool :=
  if is_Some_b value && negb (Role.eqb (User.role this) Role.student)
  then false
  else true.

(** [validate.validator] of an element of [children] in the user schema *)
Definition userSchema_children_validator (this : User.t) : bool :=
  Role.eqb (User.role this) Role.parent.

(** The validators of [parentId] and of [children] accept the document
    [u]. *)
Definition validators_accept (u : User.t) : bool :=
  userSchema_parentId_validator u (User.parentId u)
  && forallb (fun _ => userSchema_children_validator u) (User.children u).

(** Every stored user is accepted by the two validators. *)
Definition users_valid (d : Db) : Prop :=
  forall k u, users d !! k = Some u -> validators_accept u = true.

(** ** The statistics of a child, of the parent controller *)

Module ChildStats.
Record t : Type := mk {
  childName : string;
  roomNumber : option string;
  totalLeaves : nat;
  pendingLeaves : nat;
  approvedLeaves : nat;
}.
End ChildStats.

Section ChildStatistics.
Context {env : Env}.

(** [Leave.find({ studentId: sid })], in the order of the store *)
Definition Leave_find (s : Site) (sid : ObjectId) : M (list Leave.t) :=
  await s (
    d <- get_db ;;
    ret ((map_to_list
            (filter (fun kv => Leave.studentId kv.2 = sid) (leaves d))).*2)).

(** The function that [getChildStats] maps over the children of the
    parent; [child_id] is [child._id]. *)
Definition getChildStats_child (child_id : ObjectId) (child : User.t)
  : M ChildStats.t :=
  leaves <- Leave_find (parent_controller 64) child_id ;;
  ret (ChildStats.mk
         (User.firstName child ++ " " ++ User.lastName child)
         (User.roomNumber child)
         (length leaves)
         (length (List.filter
                    (fun leave => Status_eqb (Leave.status leave) pending)
                    leaves))
         (length (List.filter
                    (fun leave => Status_eqb (Leave.status leave) approved)
                    leaves))).

End ChildStatistics.

(** The number of stored leaves of the student [sid] that have the status
    [s]. *)
Definition leaves_with (d : Db) (sid : ObjectId) (s : Status) : nat :=
  size (filter (fun kv => Leave.studentId kv.2 = sid /\ Leave.status kv.2 = s)
          (leaves d)).

(** ** Vocabulary of the further statements *)

(** The two writes of [removeParentFromStudent], on the student with the
    id [sid] and the parent with the id [pid]. *)
Definition unlinked (d : Db) (sid pid : ObjectId) : Db :=
  mkDb (alter (User.set_parentId None) sid
          (alter (fun p => User.set_children (pull sid (User.children p)) p)
             pid (users d)))
       (leaves d) (complaints d).

(** [w] with the leave [l] stored under the id [lid]. *)
Definition with_leave (w : World) (lid : ObjectId) (l : Leave.t) : World :=
  mkWorld (mkDb (users (db w)) (<[lid := l]> (leaves (db w)))
             (complaints (db w))) (session w).

Section ReviewOutcome.
Context {env : Env}.

(** The leave that a permitted review by the parent with the id [pid]
    makes of the pending leave [l], as the first save of [reviewLeave]
    stores it: the location is still there. *)
Definition decided (pid : ObjectId) (action remarks : option string)
    (l : Leave.t) : Leave.t :=
  let l1 :=
    Leave.set_parentReview
      (Some (Review.mk (action_status action) (default "" remarks)
               (Some pid) (Some Date_now))) l in
  if staff_approved l1 && js_eq action "approve"
  then Leave.set_status approved l1
  else if js_eq action "reject"
  then Leave.set_status rejected l1
  else Leave.set_status pending l1.

(** The same, as it is stored in the end. *)
Definition reviewed (pid : ObjectId) (action remarks : option string)
    (l : Leave.t) : Leave.t :=
  let l2 := decided pid action remarks l in
  if Status_eqb (Leave.status l2) approved
     || Status_eqb (Leave.status l2) rejected
  then Leave.set_leaveLocation loc_falsy l2 else l2.

End ReviewOutcome.

(** * Properties *)

(** ** Tests on request values *)

Lemma Status_eqb_eq (s t : Status) : Status_eqb s t = true <-> s = t.
Proof. destruct s, t; cbn; intuition congruence. Qed.

Lemma Status_eqb_pending_false (s : Status) :
  Status_eqb s pending = false <-> Terminal s.
Proof. unfold Terminal. destruct s; cbn; intuition congruence. Qed.

Lemma Role_eqb_eq (r s : Role.t) : Role.eqb r s = true <-> r = s.
Proof. destruct r, s; cbn; intuition congruence. Qed.

Lemma js_not_Some (s : string) : s <> "" -> js_not (Some s) = false.
Proof. intros H. cbn. by apply String.eqb_neq. Qed.

Lemma js_not_false (x : option string) :
  js_not x = false -> exists s, x = Some s /\ s <> "".
Proof.
  destruct x as [s|]; cbn; [|discriminate].
  intros H%String.eqb_neq. eauto.
Qed.

Lemma includes_action (action : option string) :
  includes ["approve"; "reject"] action = true <->
  action = Some "approve" \/ action = Some "reject".
Proof.
  unfold includes, js_eq. destruct action as [a|]; cbn.
  - rewrite !orb_true_iff, !String.eqb_eq. intuition congruence.
  - intuition congruence.
Qed.

Lemma staff_approved_true (l : Leave.t) :
  staff_approved l = true <->
  Review.status <$> Leave.staffReview l = Some approved.
Proof.
  unfold staff_approved. destruct (Leave.staffReview l) as [r|]; cbn.
  - rewrite Status_eqb_eq. intuition congruence.
  - intuition congruence.
Qed.

Lemma well_formed_leave_checks (g : JsLocation) :
  well_formed g = true ->
  loc_not g || negb (typeof_object g) || negb (has_coordinates g) = false /\
  negb (Array_isArray (coordinates_of g))
  || negb (Nat.eqb (coords_length (coordinates_of g)) 2) = false.
Proof.
  destruct g as [| |[| |a]]; cbn; try discriminate.
  intros ->. done.
Qed.

Lemma malformed_leave_checks (g : JsLocation) :
  well_formed g = false ->
  loc_not g || negb (typeof_object g) || negb (has_coordinates g) = true \/
  negb (Array_isArray (coordinates_of g))
  || negb (Nat.eqb (coords_length (coordinates_of g)) 2) = true.
Proof.
  destruct g as [| |[| |a]]; cbn; auto.
  intros ->. auto.
Qed.

Lemma parent_location_check (g : JsLocation) :
  loc_not g || negb (typeof_object g) || negb (has_coordinates g)
  || negb (Array_isArray (coordinates_of g))
  || negb (Nat.eqb (coords_length (coordinates_of g)) 2)
  = negb (well_formed g).
Proof. destruct g as [| |[| |a]]; cbn; done. Qed.

Lemma well_formed_present (g : JsLocation) :
  well_formed g = true -> loc_not g = false.
Proof. destruct g; cbn; done. Qed.

(** ** Reading a stored leave *)

Lemma well_formed_hydrate (g : JsLocation) :
  well_formed (hydrate_location g) = well_formed g.
Proof. destruct g as [| |[| |a]]; done. Qed.

Lemma Leave_hydrate_well_formed (l : Leave.t) :
  well_formed (Leave.leaveLocation l) = true -> Leave_hydrate l = l.
Proof.
  unfold Leave_hydrate. destruct l as [? ? ? ? ? ? ? ? ? ? ? g]. cbn.
  destruct g as [| |[| |a]]; done.
Qed.

Lemma Leave_hydrate_location (l : Leave.t) :
  Leave.leaveLocation (Leave_hydrate l)
  = hydrate_location (Leave.leaveLocation l).
Proof. done. Qed.

Lemma Leave_hydrate_cleared (l : Leave.t) :
  loc_not (Leave.leaveLocation l) = true ->
  Leave.leaveLocation (Leave_hydrate l) = loc_object (coords_array []).
Proof. rewrite Leave_hydrate_location. by destruct (Leave.leaveLocation l). Qed.

Lemma Leave_hydrate_status (l : Leave.t) :
  Leave.status (Leave_hydrate l) = Leave.status l.
Proof. done. Qed.

Lemma staff_approved_hydrate (l : Leave.t) :
  staff_approved (Leave_hydrate l) = staff_approved l.
Proof. done. Qed.

(** ** Parent review *)

Section ParentReview.
Context {env : Env}.

(** Runs [reviewLeave] up to the location checks, for a reviewable request:
    [Hrel : Reliable env], [Hrv : Reviewable ...], and [Hact] says that the
    action is one of the two. *)
Ltac enter_review Hrel Hrv Hact :=
  let Htruthy := fresh "Htruthy" in
  let Hpid := fresh "Hpid" in
  let Hparent := fresh "Hparent" in
  let Hrole := fresh "Hrole" in
  let Hlid := fresh "Hlid" in
  let Hleave := fresh "Hleave" in
  let Hchild := fresh "Hchild" in
  destruct Hrv as [Htruthy Hpid Hparent Hrole Hlid Hleave Hchild];
  unfold reviewLeave, run, try_catch;
  rewrite (js_not_Some _ Htruthy), Hact; cbn [negb default from_option id];
  unfold bind at 1; unfold User_findOne, await; rewrite Hrel;
  unfold cast_ObjectId; rewrite Hpid; cbn; rewrite Hparent;
  rewrite (proj2 (Role_eqb_eq _ _) Hrole);
  unfold bind at 1; unfold Leave_findOne, await; rewrite Hrel;
  unfold cast_ObjectId; rewrite Hlid; cbn; rewrite Hleave;
  rewrite (bool_decide_eq_true_2 _ Hchild);
  rewrite parent_location_check.

(** A reviewable approval from within the radius is refused at the gate;
    the status of the leave is not looked at. *)
Lemma reviewLeave_gate w pid lid p l action remarks cur :
  Reliable env -> Reviewable w pid lid p l ->
  includes ["approve"; "reject"] action = true ->
  well_formed cur = true ->
  well_formed (Leave.leaveLocation l) = true ->
  (calculateDistance (coords cur) (coords (Leave.leaveLocation l)) <? 5)%float
    && js_eq action "approve" = true ->
  run (reviewLeave (Some pid) lid action remarks cur) w
  = (Some geofence_refusal, w).
Proof.
  intros Hrel Hrv Hact Hcur Hloc Hd.
  destruct (well_formed_leave_checks _ Hloc) as [H1 H2].
  enter_review Hrel Hrv Hact.
  rewrite (Leave_hydrate_well_formed _ Hloc), Hcur. cbn [negb].
  rewrite H1, H2. fold (coords cur). fold (coords (Leave.leaveLocation l)).
  rewrite Hd. reflexivity.
Qed.

(** A reviewable request with a malformed location is refused for it,
    whatever the status of the leave. *)
Lemma reviewLeave_location w pid lid p l action remarks cur :
  Reliable env -> Reviewable w pid lid p l ->
  includes ["approve"; "reject"] action = true ->
  well_formed cur && well_formed (Leave.leaveLocation l) = false ->
  exists r, r ∈ location_errors /\
    run (reviewLeave (Some pid) lid action remarks cur) w = (Some r, w).
Proof.
  intros Hrel Hrv Hact Hwf.
  enter_review Hrel Hrv Hact.
  destruct (well_formed cur) eqn:Hcur; cbn [negb].
  - cbn in Hwf. rewrite <- well_formed_hydrate in Hwf.
    rewrite <- Leave_hydrate_location in Hwf.
    destruct (malformed_leave_checks _ Hwf) as [H | H].
    + rewrite H. eexists. split; [|reflexivity].
      unfold location_errors. rewrite !elem_of_cons. auto.
    + destruct (_ || _ || _); rewrite ?H;
        (eexists; split; [|reflexivity]);
        unfold location_errors; rewrite !elem_of_cons; auto.
  - eexists. split; [|reflexivity].
    unfold location_errors. rewrite !elem_of_cons. auto.
Qed.

(** A rejection is never answered with the refusal of the gate. *)
Lemma reviewLeave_reject_not_gated w parentId lid remarks cur :
  fst (run (reviewLeave parentId lid (Some "reject") remarks cur) w)
  <> Some geofence_refusal.
Proof.
  unfold_handler. exec; try discriminate.
  rewrite andb_false_r in *. discriminate.
Qed.

(** A review of a leave that is not pending is answered with an error and
    writes nothing, whatever else the request holds and whichever calls
    fail. *)
Lemma reviewLeave_terminal_unchanged w parentId lid l action remarks cur :
  leaves (db w) !! ObjectId_hex lid = Some l -> Terminal (Leave.status l) ->
  exists r,
    run (reviewLeave parentId lid action remarks cur) w = (Some r, w) /\
    statusCode r <> 200.
Proof.
  intros Hl Hterm. apply Status_eqb_pending_false in Hterm.
  unfold_handler. exec; try (eexists; split; [reflexivity | done]).
  all: simplify_eq; rewrite Leave_hydrate_status in *.
  all: rewrite Hterm in *; discriminate.
Qed.

(** A reviewable review that passes the location checks and the gate, of a
    leave that is not pending, is a conflict. *)
Lemma reviewLeave_conflict w pid lid p l action remarks cur :
  Reliable env -> Reviewable w pid lid p l ->
  Terminal (Leave.status l) ->
  includes ["approve"; "reject"] action = true ->
  well_formed cur = true ->
  well_formed (Leave.leaveLocation l) = true ->
  (calculateDistance (coords cur) (coords (Leave.leaveLocation l)) <? 5)%float
    && js_eq action "approve" = false ->
  run (reviewLeave (Some pid) lid action remarks cur) w
  = (Some already_reviewed, w).
Proof.
  intros Hrel Hrv Hst%Status_eqb_pending_false Hact Hcur Hloc Hd.
  destruct (well_formed_leave_checks _ Hloc) as [H1 H2].
  enter_review Hrel Hrv Hact.
  rewrite (Leave_hydrate_well_formed _ Hloc), Hcur. cbn [negb].
  rewrite H1, H2. fold (coords cur). fold (coords (Leave.leaveLocation l)).
  rewrite Hd, Hst. reflexivity.
Qed.

(** What a reviewable, permitted review of a pending leave stores and
    answers. *)
Lemma reviewLeave_decides w pid lid p l action remarks cur :
  Reliable env -> Reviewable w pid lid p l ->
  Leave.status l = pending ->
  includes ["approve"; "reject"] action = true ->
  well_formed cur = true ->
  well_formed (Leave.leaveLocation l) = true ->
  (calculateDistance (coords cur) (coords (Leave.leaveLocation l)) <? 5)%float
    && js_eq action "approve" = false ->
  exists l',
    run (reviewLeave (Some pid) lid action remarks cur) w
    = (Some (mkResponse 200 (action_ed action "by parent") (leave_payload l')),
       mkWorld (mkDb (users (db w))
                  (<[ObjectId_hex lid := l']> (leaves (db w)))
                  (complaints (db w))) (session w)) /\
    Leave.parentReview l'
    = Some (Review.mk (action_status action) (default "" remarks)
              (Some (ObjectId_hex pid)) (Some Date_now)) /\
    Leave.staffReview l' = Leave.staffReview l /\
    Leave.status l'
    = (if js_eq action "reject" then rejected
       else if staff_approved l then approved else pending) /\
    Leave.leaveLocation l'
    = (if Status_eqb (Leave.status l') pending
       then Leave.leaveLocation l else loc_falsy).
Proof.
  intros Hrel Hrv Hst Hact Hcur Hloc Hd.
  destruct (well_formed_leave_checks _ Hloc) as [H1 H2].
  pose proof Hrv as [_ Hpid' _ _ _ _ _].
  enter_review Hrel Hrv Hact.
  rewrite (Leave_hydrate_well_formed _ Hloc), Hcur. cbn [negb].
  rewrite H1, H2. fold (coords cur). fold (coords (Leave.leaveLocation l)).
  rewrite Hd, Hst. cbn [Status_eqb negb].
  unfold ObjectId_new. rewrite Hpid'. unfold Leave_save, await. rewrite !Hrel.
  change (staff_approved (Leave.set_parentReview ?r l))
    with (staff_approved l).
  apply includes_action in Hact as [-> | ->];
    destruct (staff_approved l) eqn:Hs; cbn;
    rewrite ?insert_insert_eq;
    (eexists; split; [reflexivity | cbn; done]).
Qed.

(** The parent's path keeps invariant I1: the leave that a successful
    review stores has its location exactly when it is still pending. *)
Lemma reviewLeave_keeps_I1 w pid lid p l action remarks cur :
  Reliable env -> Reviewable w pid lid p l ->
  Leave.status l = pending ->
  includes ["approve"; "reject"] action = true ->
  well_formed cur = true ->
  well_formed (Leave.leaveLocation l) = true ->
  (calculateDistance (coords cur) (coords (Leave.leaveLocation l)) <? 5)%float
    && js_eq action "approve" = false ->
  exists l',
    leaves (db (snd (run (reviewLeave (Some pid) lid action remarks cur) w)))
      !! ObjectId_hex lid = Some l' /\ I1 l'.
Proof.
  intros Hrel Hrv Hst Hact Hcur Hloc Hd.
  destruct (reviewLeave_decides w pid lid p l action remarks cur)
    as (l' & -> & _ & _ & _ & Hl'); try done.
  exists l'. cbn. split; [apply lookup_insert_eq|].
  unfold I1. rewrite Hl'. destruct (Status_eqb (Leave.status l') pending) eqn:E.
  - apply Status_eqb_eq in E. split; [done|]. intros _.
    by apply well_formed_present.
  - apply Status_eqb_pending_false in E. cbn.
    split; [done|]. intros E'. destruct E as [E | E]; congruence.
Qed.

(** A reviewable request on a leave that has no stored location passes
    the second check of the leave's location and is refused at the third:
    the document that is read has an empty [coordinates] array. *)
Lemma reviewLeave_cleared w pid lid p l action remarks cur :
  Reliable env -> Reviewable w pid lid p l ->
  includes ["approve"; "reject"] action = true ->
  well_formed cur = true ->
  loc_not (Leave.leaveLocation l) = true ->
  run (reviewLeave (Some pid) lid action remarks cur) w
  = (Some (json 400 "Leave location coordinates are missing or invalid"), w).
Proof.
  intros Hrel Hrv Hact Hcur Hgone.
  enter_review Hrel Hrv Hact.
  rewrite Hcur, (Leave_hydrate_cleared _ Hgone). reflexivity.
Qed.

End ParentReview.

Section ParentReviewClaims.
Context {env : Env}.

(** C2.  A parent's review of a pending leave that the geofence lets
    through (a rejection, or an approval from at least the restricted
    radius away) succeeds and stores the leave with this overall status:
    rejected for [reject], whatever the staff review says; approved for
    [approve] when [staffReview.status] is approved; still pending for
    [approve] when staff has not approved. *)
Theorem parent_review_overall_status w pid lid p l action remarks cur :
  Reliable env -> Reviewable w pid lid p l ->
  Leave.status l = pending ->
  well_formed cur = true ->
  well_formed (Leave.leaveLocation l) = true ->
  action = "approve" \/ action = "reject" ->
  (calculateDistance (coords cur) (coords (Leave.leaveLocation l)) <? 5)%float
    && js_eq (Some action) "approve" = false ->
  exists l' w',
    run (reviewLeave (Some pid) lid (Some action) remarks cur) w
    = (Some (mkResponse 200 (action_ed (Some action) "by parent")
               (leave_payload l')), w') /\
    leaves (db w') !! ObjectId_hex lid = Some l' /\
    (action = "reject" -> Leave.status l' = rejected) /\
    (action = "approve" ->
     Review.status <$> Leave.staffReview l = Some approved ->
     Leave.status l' = approved) /\
    (action = "approve" ->
     Review.status <$> Leave.staffReview l <> Some approved ->
     Leave.status l' = pending).
Proof.
  intros Hrel Hrv Hst Hcur Hloc Hact Hd.
  assert (includes ["approve"; "reject"] (Some action) = true) as Hinc.
  { apply includes_action. destruct Hact; subst; auto. }
  destruct (reviewLeave_decides w pid lid p l (Some action) remarks cur)
    as (l' & Hrun & _ & _ & Hstatus & _); try done.
  eexists l', _. split; [exact Hrun|]. cbn.
  split; [apply lookup_insert_eq|].
  rewrite Hstatus. repeat split.
  - intros ->. reflexivity.
  - intros -> Hs%staff_approved_true. cbn. by rewrite Hs.
  - intros -> Hs. cbn. destruct (staff_approved l) eqn:E; [|done].
    by apply staff_approved_true in E.
Qed.

(** C3.  A reviewable approval whose computed distance between the
    caller's location and the leave's stored location is below 5 is
    answered with the refusal of the gate and the world is left as it was,
    whatever the leave's staff review and status; and no rejection, in any
    world and for any request, is answered with that refusal. *)
Theorem geofence_refuses_approval_within_radius w pid lid p l remarks cur :
  Reliable env -> Reviewable w pid lid p l ->
  well_formed cur = true ->
  well_formed (Leave.leaveLocation l) = true ->
  (calculateDistance (coords cur) (coords (Leave.leaveLocation l)) <? 5)%float
  = true ->
  run (reviewLeave (Some pid) lid (Some "approve") remarks cur) w
  = (Some geofence_refusal, w) /\
  forall w' parentId' lid' remarks' cur',
    fst (run (reviewLeave parentId' lid' (Some "reject") remarks' cur') w')
    <> Some geofence_refusal.
Proof.
  intros Hrel Hrv Hcur Hloc Hd. split.
  - apply (reviewLeave_gate w pid lid p l); try done. by rewrite Hd.
  - intros. apply reviewLeave_reject_not_gated.
Qed.

(** C4 does not hold of the code.  A review of a leave whose status is
    approved or rejected is answered with an error and changes nothing,
    whatever the request and whichever database calls fail; so far the
    claim holds.  But the check of the status (line 314), which answers
    "Leave already reviewed", comes after the checks of the leave's
    location (lines 287-299), and a review that makes a leave terminal
    clears that location (line 336).  So for every terminal leave that, as
    I1 asks, has no location any more, a reviewable request with a
    well-formed location of the caller is answered "Leave location
    coordinates are missing or invalid" (the document that is read has an
    empty [coordinates] array), and not with the conflict that the code
    has a check for. *)
Theorem terminal_leave_review_misses_conflict
    w parentId lid l action remarks cur :
  leaves (db w) !! ObjectId_hex lid = Some l -> Terminal (Leave.status l) ->
  (exists r,
     run (reviewLeave parentId lid action remarks cur) w = (Some r, w) /\
     statusCode r <> 200) /\
  (forall pid p,
     Reliable env -> parentId = Some pid -> Reviewable w pid lid p l ->
     I1 l ->
     includes ["approve"; "reject"] action = true ->
     well_formed cur = true ->
     run (reviewLeave parentId lid action remarks cur) w
     = (Some (json 400 "Leave location coordinates are missing or invalid"),
        w)) /\
  json 400 "Leave location coordinates are missing or invalid"
  <> already_reviewed.
Proof.
  intros Hl Hterm. split; [|split; [|discriminate]].
  - by apply (reviewLeave_terminal_unchanged w parentId lid l).
  - intros pid p Hrel -> Hrv HI1 Hact Hcur.
    assert (loc_not (Leave.leaveLocation l) = true) as Hgone.
    { destruct (loc_not (Leave.leaveLocation l)) eqn:E; [done|].
      apply HI1 in E. destruct Hterm; congruence. }
    by apply (reviewLeave_cleared w pid lid p l).
Qed.

(** C10.  In [reviewLeave] the location checks and the gate come before
    the status check: a reviewable request whose own or whose leave's
    location is absent or malformed is answered with one of the location
    errors, and a reviewable approval from within the radius with the
    refusal of the gate, whatever the status of the leave (so also when it
    is approved or rejected); none of these answers is "Leave already
    reviewed", and the world is left as it was. *)
Theorem location_checks_precede_status_check
    w pid lid p l action remarks cur :
  Reliable env -> Reviewable w pid lid p l ->
  action = "approve" \/ action = "reject" ->
  (well_formed cur && well_formed (Leave.leaveLocation l) = false ->
   exists r, r ∈ location_errors /\ r <> already_reviewed /\
     run (reviewLeave (Some pid) lid (Some action) remarks cur) w
     = (Some r, w)) /\
  (well_formed cur = true ->
   well_formed (Leave.leaveLocation l) = true ->
   action = "approve" ->
   (calculateDistance (coords cur) (coords (Leave.leaveLocation l)) <? 5)%float
   = true ->
   run (reviewLeave (Some pid) lid (Some action) remarks cur) w
   = (Some geofence_refusal, w)) /\
  geofence_refusal <> already_reviewed.
Proof.
  intros Hrel Hrv Hact.
  assert (includes ["approve"; "reject"] (Some action) = true) as Hinc.
  { apply includes_action. destruct Hact; subst; auto. }
  split; [|split].
  - intros Hwf.
    destruct (reviewLeave_location w pid lid p l (Some action) remarks cur)
      as (r & Hr & Hrun); try done.
    exists r. split; [done|]. split; [|done].
    intros ->. unfold location_errors, already_reviewed in Hr.
    rewrite !elem_of_cons, elem_of_nil in Hr.
    intuition discriminate.
  - intros Hcur Hloc -> Hd.
    apply (reviewLeave_gate w pid lid p l); try done. by rewrite Hd.
  - discriminate.
Qed.

End ParentReviewClaims.

(** *** On the example database *)

(** The spec's boundary point, 0.0449 degrees of latitude from the origin,
    is just under 5 km away (4.9927 under the reference runtime): an
    approval from there is within the radius. *)
Example boundary_point_within_radius :
  (calculateDistance (rt := ReferenceRuntime.reference_math)
     [0; 0]%float [0; 0.0449]%float <? 5)%float = true.
Proof. vm_compute. reflexivity. Qed.

Lemma example_reliable : Reliable Example.reliable.
Proof. intros s. reflexivity. Qed.

(** In the example world [meera] may review the leaves of [asha], in
    every run. *)
Lemma example_reviewable (failing : Site -> bool) (lid : string)
    (l : Leave.t) :
  Example.isValid lid = true ->
  leaves Example.database !! Example.toHexString lid = Some l ->
  Leave.studentId l = Example.asha_id ->
  Reviewable (env := Example.environment failing) Example.world
    Example.meera_id lid Example.meera l.
Proof.
  intros Hv Hl Hs. split; try done.
  rewrite Hs. cbn. apply elem_of_cons. by left.
Qed.

(** On the example: [meera], far from home, approves [leave2], which staff
    has approved, and the leave becomes approved. *)
Lemma parent_review_overall_status_witness :
  exists l' w',
    run (reviewLeave (env := Example.reliable) (Some Example.meera_id)
           Example.leave2_id (Some "approve") None Example.far_from_home)
      Example.world
    = (Some (mkResponse 200 "Leave approveed by parent" (leave_payload l')),
       w') /\
    leaves (db w') !! Example.leave2_id = Some l' /\
    Leave.status l' = approved.
Proof.
  destruct (parent_review_overall_status (env := Example.reliable)
              Example.world Example.meera_id Example.leave2_id Example.meera
              Example.leave2 "approve" None Example.far_from_home)
    as (l' & w' & Hrun & Hl & _ & Happroved & _).
  - exact example_reliable.
  - apply example_reviewable; reflexivity.
  - reflexivity.
  - reflexivity.
  - reflexivity.
  - left. reflexivity.
  - vm_compute. reflexivity.
  - exists l', w'. split; [exact Hrun|]. split; [exact Hl|].
    apply Happroved; reflexivity.
Defined.

(** On the example: [meera], 1.5 km from the leave's location, may not
    approve [leave1]. *)
Lemma geofence_refuses_approval_within_radius_witness :
  run (reviewLeave (env := Example.reliable) (Some Example.meera_id)
         Example.leave1_id (Some "approve") None Example.near_home)
    Example.world
  = (Some geofence_refusal, Example.world).
Proof.
  apply (geofence_refuses_approval_within_radius (env := Example.reliable)
           Example.world Example.meera_id Example.leave1_id Example.meera
           Example.leave1 None Example.near_home).
  - exact example_reliable.
  - apply example_reviewable; reflexivity.
  - reflexivity.
  - reflexivity.
  - vm_compute. reflexivity.
Defined.

(** On the example: [leave3], which [meera] has rejected, is stored without
    a location; when [meera] reviews it again, from far away, the answer is the
    error for the coordinates and the world is as it was. *)
Lemma terminal_leave_review_misses_conflict_witness :
  run (reviewLeave (env := Example.reliable) (Some Example.meera_id)
         Example.leave3_id (Some "reject") None Example.far_from_home)
    Example.world
  = (Some (json 400 "Leave location coordinates are missing or invalid"),
     Example.world).
Proof.
  destruct (terminal_leave_review_misses_conflict (env := Example.reliable)
              Example.world (Some Example.meera_id) Example.leave3_id
              Example.leave3 (Some "reject") None Example.far_from_home)
    as (_ & H & _).
  - reflexivity.
  - right. reflexivity.
  - apply (H Example.meera_id Example.meera).
    + exact example_reliable.
    + reflexivity.
    + apply example_reviewable; reflexivity.
    + split; discriminate.
    + reflexivity.
    + reflexivity.
Defined.

(** On the example: a review of [leave3], which is rejected and has no
    location any more, is answered with a location error. *)
Lemma location_checks_precede_status_check_witness :
  exists r, r ∈ location_errors /\ r <> already_reviewed /\
    run (reviewLeave (env := Example.reliable) (Some Example.meera_id)
           Example.leave3_id (Some "approve") None Example.far_from_home)
      Example.world
    = (Some r, Example.world).
Proof.
  apply (location_checks_precede_status_check (env := Example.reliable)
           Example.world Example.meera_id Example.leave3_id Example.meera
           Example.leave3 "approve" None Example.far_from_home).
  - exact example_reliable.
  - apply example_reviewable; reflexivity.
  - left. reflexivity.
  - reflexivity.
Defined.

(** ** Admin override *)

Lemma alter_insert_lookup {A : Type} (f : A -> A) (m : gmap string A) k x :
  m !! k = Some x -> alter f k m = <[k := f x]> m.
Proof.
  intros H. apply map_eq. intros j. rewrite lookup_alter, lookup_insert.
  case_decide; simplify_eq; [by rewrite H | done].
Qed.

Section AdminOverride.
Context {env : Env}.

Lemma leaveAdminApprove_invalid_action w adminId leaveId action :
  includes ["approve"; "reject"] action = false ->
  run (leaveAdminApprove adminId leaveId action) w
  = (Some (json 400 "Invalid action"), w).
Proof.
  intros H. unfold leaveAdminApprove, run, try_catch. rewrite H.
  reflexivity.
Qed.

Lemma leaveAdminApprove_invalid_id w adminId leaveId action :
  includes ["approve"; "reject"] action = true ->
  ObjectId_isValid leaveId = false ->
  run (leaveAdminApprove adminId leaveId action) w
  = (Some (json 400 "Invalid leave ID"), w).
Proof.
  intros H1 H2. unfold leaveAdminApprove, run, try_catch. rewrite H1, H2.
  reflexivity.
Qed.

Lemma leaveAdminApprove_unknown w adminId leaveId action :
  Reliable env ->
  includes ["approve"; "reject"] action = true ->
  ObjectId_isValid leaveId = true ->
  leaves (db w) !! ObjectId_hex leaveId = None ->
  run (leaveAdminApprove adminId leaveId action) w
  = (Some (json 404 "Leave not found"), w).
Proof.
  intros Hrel H1 H2 H3. unfold leaveAdminApprove, run, try_catch.
  rewrite H1, H2. cbn [negb]. unfold bind at 1.
  unfold Leave_findById, await, cast_ObjectId.
  rewrite Hrel, H2. cbn. rewrite H3. reflexivity.
Qed.

(** One update writes the status and both reviews of a stored leave. *)
Lemma leaveAdminApprove_found w adminId leaveId action l :
  Reliable env ->
  ObjectId_isValid adminId = true ->
  includes ["approve"; "reject"] action = true ->
  ObjectId_isValid leaveId = true ->
  leaves (db w) !! ObjectId_hex leaveId = Some l ->
  run (leaveAdminApprove (Some adminId) leaveId action) w
  = (Some (mkResponse 200 (action_ed action "successfully")
             (leave_payload
                (Leave_hydrate
                   (admin_set action (ObjectId_hex adminId)
                      (ObjectId_hex adminId) l)))),
     mkWorld (mkDb (users (db w))
                (<[ObjectId_hex leaveId :=
                     admin_set action (ObjectId_hex adminId)
                       (ObjectId_hex adminId) l]>
                   (leaves (db w)))
                (complaints (db w))) (session w)).
Proof.
  intros Hrel Ha H1 H2 H3. unfold leaveAdminApprove, run, try_catch.
  rewrite H1, H2. cbn [negb]. unfold bind at 1.
  unfold Leave_findById, await, cast_ObjectId.
  rewrite Hrel, H2. cbn. rewrite H3. cbn.
  unfold ObjectId_new. rewrite Ha.
  unfold Leave_findOneAndUpdate, await, cast_ObjectId.
  rewrite Hrel, H2. cbn. rewrite H3. cbn.
  by rewrite (alter_insert_lookup _ _ _ _ H3).
Qed.

(** What the [$set] writes, field by field. *)
Lemma admin_set_fields action staffBy parentBy l :
  Leave.status (admin_set action staffBy parentBy l) = action_status action /\
  Leave.staffReview (admin_set action staffBy parentBy l)
  = Some (Review.mk (action_status action) "Approved by admin"
            (Some staffBy) (Some Date_now)) /\
  Leave.parentReview (admin_set action staffBy parentBy l)
  = Some (Review.mk (action_status action) "Approved by admin"
            (Some parentBy) (Some Date_now)) /\
  Leave.leaveLocation (admin_set action staffBy parentBy l)
  = Leave.leaveLocation l /\
  same_request l (admin_set action staffBy parentBy l).
Proof. unfold same_request. repeat split. Qed.

(** Whichever calls fail, the override writes all of its [$set] or
    nothing. *)
Lemma leaveAdminApprove_atomic w adminId leaveId action :
  after (leaveAdminApprove adminId leaveId action) w = db w \/
  exists l staffBy parentBy,
    leaves (db w) !! ObjectId_hex leaveId = Some l /\
    after (leaveAdminApprove adminId leaveId action) w
    = mkDb (users (db w))
        (<[ObjectId_hex leaveId := admin_set action staffBy parentBy l]>
           (leaves (db w)))
        (complaints (db w)).
Proof.
  unfold after. unfold_handler. exec; auto.
  all: simplify_eq; right; eexists _, _, _; (split; [reflexivity|]).
  all: erewrite alter_insert_lookup by eassumption; reflexivity.
Qed.

(** The override makes a pending leave terminal and keeps its location:
    I1 does not hold of what it stores. *)
Lemma leaveAdminApprove_breaks_I1 w adminId leaveId action l :
  Reliable env ->
  ObjectId_isValid adminId = true ->
  includes ["approve"; "reject"] action = true ->
  ObjectId_isValid leaveId = true ->
  leaves (db w) !! ObjectId_hex leaveId = Some l ->
  loc_not (Leave.leaveLocation l) = false ->
  exists l',
    leaves (after (leaveAdminApprove (Some adminId) leaveId action) w)
      !! ObjectId_hex leaveId = Some l' /\
    Terminal (Leave.status l') /\
    Leave.leaveLocation l' = Leave.leaveLocation l /\ ~ I1 l'.
Proof.
  intros Hrel Ha Hact Hid Hl Hloc. unfold after.
  rewrite (leaveAdminApprove_found w adminId leaveId action l) by done.
  eexists. split; [apply lookup_insert_eq|]. cbn.
  assert (Terminal (action_status action)) as Hterm.
  { unfold Terminal, action_status. destruct (js_eq action "approve"); auto. }
  split; [exact Hterm|]. split; [reflexivity|].
  unfold I1. cbn. intros [H _]. specialize (H Hloc).
  destruct Hterm as [E | E]; congruence.
Qed.

(** C5.  For a stored leave and an action that is [approve] or [reject],
    the admin override answers 200 with the leave that it has written, and
    the leave that is stored afterwards has the overall status and the
    status of both reviews equal to the status that the action stands for,
    each review stamped with the admin's id, the remark "Approved by
    admin" and the time of the call, and every other field, the location
    among them, as it was; the leave's previous status and location play
    no part.  A well-formed id under which no leave is stored is answered
    404, an action that is neither is answered 400, and so is a malformed
    id; these leave the world as it was.  Whichever database calls fail,
    the database after the call is as it was or has the whole update: the
    overall status and both reviews decided alike. *)
Theorem admin_override_decides w adminId leaveId action :
  (forall l st,
     Reliable env -> ObjectId_isValid adminId = true ->
     ObjectId_isValid leaveId = true ->
     leaves (db w) !! ObjectId_hex leaveId = Some l ->
     action = Some "approve" /\ st = approved \/
     action = Some "reject" /\ st = rejected ->
     exists l',
       run (leaveAdminApprove (Some adminId) leaveId action) w
       = (Some (mkResponse 200 (action_ed action "successfully")
                  (leave_payload (Leave_hydrate l'))),
          mkWorld (mkDb (users (db w))
                     (<[ObjectId_hex leaveId := l']> (leaves (db w)))
                     (complaints (db w))) (session w)) /\
       Leave.status l' = st /\
       Leave.staffReview l'
       = Some (Review.mk st "Approved by admin"
                 (Some (ObjectId_hex adminId)) (Some Date_now)) /\
       Leave.parentReview l'
       = Some (Review.mk st "Approved by admin"
                 (Some (ObjectId_hex adminId)) (Some Date_now)) /\
       Leave.leaveLocation l' = Leave.leaveLocation l /\
       same_request l l') /\
  (Reliable env ->
   includes ["approve"; "reject"] action = true ->
   ObjectId_isValid leaveId = true ->
   leaves (db w) !! ObjectId_hex leaveId = None ->
   run (leaveAdminApprove (Some adminId) leaveId action) w
   = (Some (json 404 "Leave not found"), w)) /\
  (includes ["approve"; "reject"] action = false ->
   run (leaveAdminApprove (Some adminId) leaveId action) w
   = (Some (json 400 "Invalid action"), w)) /\
  (includes ["approve"; "reject"] action = true ->
   ObjectId_isValid leaveId = false ->
   run (leaveAdminApprove (Some adminId) leaveId action) w
   = (Some (json 400 "Invalid leave ID"), w)) /\
  (after (leaveAdminApprove (Some adminId) leaveId action) w = db w \/
   exists l l',
     leaves (db w) !! ObjectId_hex leaveId = Some l /\
     after (leaveAdminApprove (Some adminId) leaveId action) w
     = mkDb (users (db w)) (<[ObjectId_hex leaveId := l']> (leaves (db w)))
         (complaints (db w)) /\
     Terminal (Leave.status l') /\
     Review.status <$> Leave.staffReview l' = Some (Leave.status l') /\
     Review.status <$> Leave.parentReview l' = Some (Leave.status l') /\
     Review.remarks <$> Leave.staffReview l' = Some "Approved by admin" /\
     Review.remarks <$> Leave.parentReview l' = Some "Approved by admin" /\
     Leave.leaveLocation l' = Leave.leaveLocation l /\
     same_request l l').
Proof.
  split; [|split; [|split; [|split]]].
  - intros l st Hrel Hadmin Hid Hl Hact.
    exists (admin_set action (ObjectId_hex adminId) (ObjectId_hex adminId) l).
    split.
    + apply leaveAdminApprove_found; try done.
      apply includes_action. destruct Hact as [[-> _] | [-> _]]; auto.
    + destruct (admin_set_fields action (ObjectId_hex adminId)
                  (ObjectId_hex adminId) l) as (H1 & H2 & H3 & H4 & H5).
      rewrite H1, H2, H3, H4.
      destruct Hact as [[-> ->] | [-> ->]]; done.
  - intros. by apply leaveAdminApprove_unknown.
  - intros. by apply leaveAdminApprove_invalid_action.
  - intros. by apply leaveAdminApprove_invalid_id.
  - destruct (leaveAdminApprove_atomic w (Some adminId) leaveId action)
      as [H | (l & staffBy & parentBy & Hl & H)]; [by left|].
    right. exists l, (admin_set action staffBy parentBy l).
    destruct (admin_set_fields action staffBy parentBy l)
      as (H1 & H2 & H3 & H4 & H5).
    rewrite H1, H2, H3, H4. repeat split; try done.
    unfold Terminal, action_status. destruct (js_eq action "approve"); auto.
Qed.

End AdminOverride.

(** On the example: the admin [root] rejects [leave4], which is already
    approved; the stored leave is rejected, and so are both of its
    reviews, stamped by [root]. *)
Lemma admin_override_decides_witness :
  exists l',
    run (leaveAdminApprove (env := Example.reliable) (Some Example.root_id)
           Example.leave4_id (Some "reject")) Example.world
    = (Some (mkResponse 200 "Leave rejected successfully"
               (leave_payload (Leave_hydrate l'))),
       mkWorld (mkDb (users Example.database)
                  (<[Example.leave4_id := l']> (leaves Example.database))
                  (complaints Example.database)) NO_TRANSACTION) /\
    Leave.status l' = rejected /\
    Leave.staffReview l'
    = Some (Review.mk rejected "Approved by admin" (Some Example.root_id)
              (Some 1700000000000%Z)) /\
    Leave.parentReview l'
    = Some (Review.mk rejected "Approved by admin" (Some Example.root_id)
              (Some 1700000000000%Z)) /\
    Leave.leaveLocation l' = Example.home /\
    Leave.studentId l' = Example.asha_id.
Proof.
  destruct (admin_override_decides (env := Example.reliable) Example.world
              Example.root_id Example.leave4_id (Some "reject"))
    as [Hfound _].
  destruct (Hfound Example.leave4 rejected)
    as (l' & Hrun & Hst & Hstaff & Hparent & Hloc & Hsid & _).
  - exact example_reliable.
  - reflexivity.
  - reflexivity.
  - reflexivity.
  - right. split; reflexivity.
  - exists l'. split; [exact Hrun|]. split; [exact Hst|].
    split; [exact Hstaff|]. split; [exact Hparent|].
    split; [exact Hloc | exact Hsid].
Defined.

(** C1 fails on the admin's path.  On the example, the admin [root]
    approves the pending [leave1]: the stored leave is approved and still
    has its location, so I1, which held of [leave1], does not hold of
    it. *)
Theorem admin_override_keeps_location :
  I1 Example.leave1 /\
  exists l',
    leaves (db (snd (run (leaveAdminApprove (env := Example.reliable)
                            (Some Example.root_id) Example.leave1_id
                            (Some "approve")) Example.world)))
      !! Example.leave1_id = Some l' /\
    Leave.status l' = approved /\
    Leave.leaveLocation l' = Example.home /\
    ~ I1 l'.
Proof.
  split.
  - unfold I1. cbn. done.
  - eexists. split; [vm_compute; reflexivity|].
    split; [reflexivity|]. split; [reflexivity|].
    unfold I1. cbn. intros [H _]. specialize (H eq_refl). discriminate H.
Qed.

(** ** Assigning a parent *)

Lemma is_Some_b_false {A : Type} (x : option A) :
  is_Some_b x = false <-> x = None.
Proof. destruct x; cbn; intuition congruence. Qed.

Lemma elem_of_addToSet (x c : string) (l : list string) :
  c ∈ addToSet x l <-> c = x \/ c ∈ l.
Proof.
  unfold addToSet. case_bool_decide as H.
  - split; [auto|]. intros [-> | Hc]; done.
  - rewrite elem_of_app, list_elem_of_singleton. tauto.
Qed.

Section AssignParent.
Context {env : Env}.

(** Both writes are visible in [linked]. *)
Lemma linked_visible d sid pid s p :
  Assignable d sid pid s p ->
  users (linked d (ObjectId_hex sid) (ObjectId_hex pid)) !! ObjectId_hex sid
  = Some (User.set_parentId (Some (ObjectId_hex pid)) s) /\
  users (linked d (ObjectId_hex sid) (ObjectId_hex pid)) !! ObjectId_hex pid
  = Some (User.set_children
            (addToSet (ObjectId_hex sid) (User.children p)) p) /\
  ObjectId_hex sid ∈ addToSet (ObjectId_hex sid) (User.children p).
Proof.
  intros (_ & _ & _ & _ & Hs & Hrs & _ & Hp & Hrp).
  assert (ObjectId_hex sid <> ObjectId_hex pid) as Hne
    by (intros E; rewrite E in Hs; congruence).
  unfold linked. cbn. split; [|split].
  - rewrite lookup_alter_ne, lookup_alter_eq, Hs by done. done.
  - rewrite lookup_alter_eq, lookup_alter_ne, Hp by done. done.
  - apply elem_of_addToSet. by left.
Qed.

(** Every run of [assignParentToStudent], whichever calls fail, leaves the
    database as it was or with both writes made; the latter only for an
    assignable pair and when neither write nor the commit fails. *)
Lemma assignParentToStudent_outcomes w studentId parentId :
  db (snd (run (assignParentToStudent studentId parentId) w)) = db w \/
  exists sid pid s p, studentId = Some sid /\ parentId = Some pid /\
    Assignable (db w) sid pid s p /\
    fails (admin_controller 84) = false /\
    fails (admin_controller 91) = false /\
    fails (admin_controller 99) = false /\
    db (snd (run (assignParentToStudent studentId parentId) w))
    = linked (db w) (ObjectId_hex sid) (ObjectId_hex pid).
Proof.
  unfold_handler. exec; auto.
  all: right.
  all: match goal with
       | H : js_not _ || js_not _ = false |- _ =>
           apply orb_false_elim in H
             as [(sid & -> & Hsid)%js_not_false (pid & -> & Hpid)%js_not_false]
       end.
  all: cbn in *.
  all: match goal with
       | Hs : users _ !! ObjectId_hex ?a = Some ?s,
         Hp : users _ !! ObjectId_hex ?b = Some ?p,
         Hr : Role.eqb (User.role ?s) Role.student = true,
         Hq : Role.eqb (User.role ?p) Role.parent = true |- _ =>
           exists a, b, s, p
       end.
  all: rewrite Role_eqb_eq in *; rewrite is_Some_b_false in *.
  all: unfold Assignable, linked; auto 20.
Qed.

(** A run without failures on an assignable pair makes both writes. *)
Lemma assignParentToStudent_links w sid pid s p :
  Reliable env -> Assignable (db w) sid pid s p ->
  run (assignParentToStudent (Some sid) (Some pid)) w
  = (Some (mkResponse 200 "Student successfully assigned to parent"
             (user_payload
                (Some (User.set_parentId (Some (ObjectId_hex pid)) s)))),
     mkWorld (linked (db w) (ObjectId_hex sid) (ObjectId_hex pid))
       TRANSACTION_COMMITTED).
Proof.
  intros Hrel Ha.
  pose proof (linked_visible _ _ _ _ _ Ha) as (Hv & _ & _).
  destruct Ha as (Hvs & Hvp & Hsid & Hpid & Hs & Hrs & Hnone & Hp & Hrp).
  unfold_handler. rewrite !Hrel. cbn.
  rewrite (proj2 (String.eqb_neq _ _) Hsid), (proj2 (String.eqb_neq _ _) Hpid).
  cbn. rewrite Hvs, Hvp. cbn. rewrite Hs, Hp, Hrs, Hrp. cbn.
  rewrite Hnone. cbn. rewrite ?Hvs, ?Hvp. cbn.
  unfold linked in Hv. cbn in Hv. rewrite Hv. reflexivity.
Qed.

(** What the database with both writes holds, field by field. *)
Lemma linked_fields d sid pid s p :
  Assignable d sid pid s p ->
  exists s' p',
    users (linked d (ObjectId_hex sid) (ObjectId_hex pid)) !! ObjectId_hex sid
    = Some s' /\
    User.parentId s' = Some (ObjectId_hex pid) /\
    User.children s' = User.children s /\ same_profile s s' /\
    users (linked d (ObjectId_hex sid) (ObjectId_hex pid)) !! ObjectId_hex pid
    = Some p' /\
    (forall c, c ∈ User.children p' <->
               c = ObjectId_hex sid \/ c ∈ User.children p) /\
    User.parentId p' = User.parentId p /\ same_profile p p' /\
    (forall k, k <> ObjectId_hex sid -> k <> ObjectId_hex pid ->
       users (linked d (ObjectId_hex sid) (ObjectId_hex pid)) !! k
       = users d !! k) /\
    leaves (linked d (ObjectId_hex sid) (ObjectId_hex pid)) = leaves d /\
    complaints (linked d (ObjectId_hex sid) (ObjectId_hex pid))
    = complaints d.
Proof.
  intros Ha. destruct (linked_visible _ _ _ _ _ Ha) as (H1 & H2 & _).
  eexists _, _. split; [exact H1|]. split; [reflexivity|].
  split; [reflexivity|]. split; [by repeat split|].
  split; [exact H2|]. split; [intros c; apply elem_of_addToSet|].
  split; [reflexivity|]. split; [by repeat split|].
  split; [|done]. intros k Hs Hp. unfold linked. cbn.
  by rewrite !lookup_alter_ne.
Qed.

(** C6.  [assignParentToStudent] is all-or-nothing.  After every call,
    whichever database calls fail, the database is as it was, or both
    writes are visible in it: the student's [parentId] is the id of the
    parent and the parent's [children] are those of before and the id of
    the student, while nothing else has changed, in these two users or
    elsewhere.  The database is as it was when a write or the commit fails
    (the second write in particular), and when the pair is not assignable:
    an id missing or malformed, a user not stored or of the wrong role, a
    student who has a parent.  Without failures an assignable pair is
    linked. *)
Theorem assign_parent_all_or_nothing w studentId parentId :
  (after (assignParentToStudent studentId parentId) w = db w \/
   exists sid pid s p s' p',
     studentId = Some sid /\ parentId = Some pid /\
     Assignable (db w) sid pid s p /\
     users (after (assignParentToStudent studentId parentId) w)
       !! ObjectId_hex sid = Some s' /\
     User.parentId s' = Some (ObjectId_hex pid) /\
     User.children s' = User.children s /\ same_profile s s' /\
     users (after (assignParentToStudent studentId parentId) w)
       !! ObjectId_hex pid = Some p' /\
     (forall c, c ∈ User.children p' <->
                c = ObjectId_hex sid \/ c ∈ User.children p) /\
     User.parentId p' = User.parentId p /\ same_profile p p' /\
     (forall k, k <> ObjectId_hex sid -> k <> ObjectId_hex pid ->
        users (after (assignParentToStudent studentId parentId) w) !! k
        = users (db w) !! k) /\
     leaves (after (assignParentToStudent studentId parentId) w)
     = leaves (db w) /\
     complaints (after (assignParentToStudent studentId parentId) w)
     = complaints (db w)) /\
  (fails (admin_controller 84) = true \/
   fails (admin_controller 91) = true \/
   fails (admin_controller 99) = true ->
   after (assignParentToStudent studentId parentId) w = db w) /\
  ((forall sid pid s p,
      studentId = Some sid -> parentId = Some pid ->
      ~ Assignable (db w) sid pid s p) ->
   after (assignParentToStudent studentId parentId) w = db w) /\
  (Reliable env ->
   forall sid pid s p,
     studentId = Some sid -> parentId = Some pid ->
     Assignable (db w) sid pid s p ->
     exists s' p',
       users (after (assignParentToStudent studentId parentId) w)
         !! ObjectId_hex sid = Some s' /\
       User.parentId s' = Some (ObjectId_hex pid) /\
       users (after (assignParentToStudent studentId parentId) w)
         !! ObjectId_hex pid = Some p' /\
       ObjectId_hex sid ∈ User.children p').
Proof.
  unfold after.
  pose proof (assignParentToStudent_outcomes w studentId parentId) as Hout.
  split; [|split; [|split]].
  - destruct Hout as [H | (sid & pid & s & p & -> & -> & Ha & _ & _ & _ & H)];
      [by left|right].
    destruct (linked_fields _ _ _ _ _ Ha) as (s' & p' & Hfields).
    exists sid, pid, s, p, s', p'. rewrite H.
    split; [done|]. split; [done|]. split; [exact Ha | exact Hfields].
  - intros Hfail.
    destruct Hout as [H | (? & ? & ? & ? & _ & _ & _ & H1 & H2 & H3 & _)];
      [done|].
    destruct Hfail as [? | [? | ?]]; congruence.
  - intros Hnot.
    destruct Hout as [H | (sid & pid & s & p & -> & -> & Ha & _)]; [done|].
    by destruct (Hnot sid pid s p).
  - intros Hrel sid pid s p -> -> Ha.
    rewrite (assignParentToStudent_links w sid pid s p) by done. cbn [snd db].
    destruct (linked_fields _ _ _ _ _ Ha)
      as (s' & p' & H1 & H2 & _ & _ & H3 & H4 & _).
    exists s', p'. split; [exact H1|]. split; [exact H2|].
    split; [exact H3|]. apply H4. by left.
Qed.

End AssignParent.

(** In the example database [ravi] can be assigned to [meera], in every
    run. *)
Lemma example_assignable (failing : Site -> bool) :
  Assignable (env := Example.environment failing) Example.database
    Example.ravi_id Example.meera_id Example.ravi Example.meera.
Proof. repeat split; done. Qed.

(** On the example: when the write to the parent fails (line 91), [ravi]
    and [meera] are as they were; when nothing fails, [ravi] has [meera]
    for parent and [meera] has [ravi] among the children. *)
Lemma assign_parent_all_or_nothing_witness :
  after (assignParentToStudent
           (env := Example.environment (Example.admin_line_fails 91))
           (Some Example.ravi_id) (Some Example.meera_id)) Example.world
  = Example.database /\
  exists s' p',
    users (after (assignParentToStudent (env := Example.reliable)
                    (Some Example.ravi_id) (Some Example.meera_id))
             Example.world) !! Example.ravi_id = Some s' /\
    User.parentId s' = Some Example.meera_id /\
    users (after (assignParentToStudent (env := Example.reliable)
                    (Some Example.ravi_id) (Some Example.meera_id))
             Example.world) !! Example.meera_id = Some p' /\
    Example.ravi_id ∈ User.children p'.
Proof.
  split.
  - destruct (assign_parent_all_or_nothing
                (env := Example.environment (Example.admin_line_fails 91))
                Example.world (Some Example.ravi_id) (Some Example.meera_id))
      as (_ & Hfails & _).
    apply Hfails. right. left. reflexivity.
  - destruct (assign_parent_all_or_nothing (env := Example.reliable)
                Example.world (Some Example.ravi_id) (Some Example.meera_id))
      as (_ & _ & _ & Hlinks).
    apply (Hlinks example_reliable Example.ravi_id Example.meera_id
             Example.ravi Example.meera eq_refl eq_refl
             (example_assignable Example.no_failure)).
Defined.

(** ** Deleting a student *)

Section DeleteStudent.
Context {env : Env}.

Lemma Complaint_matches_holds path id (c : Complaint) :
  c !! path = Some id -> Complaint_matches path id c.
Proof. unfold Complaint_matches. by destruct (_ && _). Qed.

(** The controller's two [deleteMany], then the hook's two, then the
    removal of the student. *)
Lemma deleteStudent_run w id u :
  Reliable env -> ObjectId_isValid id = true ->
  users (db w) !! ObjectId_hex id = Some u -> User.role u = Role.student ->
  run (deleteStudent id) w
  = (Some (json 200 "student deleted successfully"),
     mkWorld
       (mkDb (delete (ObjectId_hex id) (users (db w)))
          (filter (fun kv => Leave.studentId kv.2 <> ObjectId_hex id)
             (filter (fun kv => Leave.studentId kv.2 <> ObjectId_hex id)
                (leaves (db w))))
          (filter
             (fun kv => ~ Complaint_matches "studentId" (ObjectId_hex id) kv.2)
             (filter
                (fun kv => ~ Complaint_matches "student" (ObjectId_hex id) kv.2)
                (complaints (db w)))))
       (session w)).
Proof.
  intros Hrel Hid Hu Hrole.
  unfold deleteStudent, run, try_catch.
  unfold bind at 1. unfold User_findOne, await, cast_ObjectId.
  rewrite Hrel, Hid. cbn. rewrite Hu, (proj2 (Role_eqb_eq _ _) Hrole).
  unfold User_deleteOne, userSchema_pre_deleteOne, Leave_deleteMany,
    Complaint_deleteMany, await, try_catch.
  rewrite !Hrel. reflexivity.
Qed.

(** C7.  For a stored student and a run without failures, [deleteStudent]
    answers 200 and leaves a database from which the student is removed,
    in which the leaves are those of before whose [studentId] is not the
    student, and in which every complaint is one of before that does not
    refer to the student: no leave and no complaint that references the
    student remains. *)
Theorem delete_student_cascades w id u :
  Reliable env -> ObjectId_isValid id = true ->
  users (db w) !! ObjectId_hex id = Some u -> User.role u = Role.student ->
  fst (run (deleteStudent id) w)
  = Some (json 200 "student deleted successfully") /\
  users (after (deleteStudent id) w)
  = delete (ObjectId_hex id) (users (db w)) /\
  users (after (deleteStudent id) w) !! ObjectId_hex id = None /\
  (forall k l, leaves (after (deleteStudent id) w) !! k = Some l <->
     leaves (db w) !! k = Some l /\ Leave.studentId l <> ObjectId_hex id) /\
  (forall k c, complaints (after (deleteStudent id) w) !! k = Some c ->
     complaints (db w) !! k = Some c /\ ~ refers_to c (ObjectId_hex id)).
Proof.
  intros Hrel Hid Hu Hrole. unfold after.
  rewrite (deleteStudent_run w id u) by done. cbn.
  split; [done|]. split; [done|]. split; [apply lookup_delete_eq|]. split.
  - intros k l. rewrite !map_lookup_filter_Some. cbn. tauto.
  - intros k c. rewrite !map_lookup_filter_Some. cbn.
    intros [[Hc Hn1] Hn2]. split; [done|].
    intros [H | H]; [apply Hn1 | apply Hn2];
      by apply Complaint_matches_holds.
Qed.

End DeleteStudent.

(** On the example: [asha] is deleted, and so is every leave and every
    complaint of [asha]. *)
Lemma delete_student_cascades_witness :
  fst (run (deleteStudent (env := Example.reliable) Example.asha_id)
         Example.world)
  = Some (json 200 "student deleted successfully") /\
  users (after (deleteStudent (env := Example.reliable) Example.asha_id)
           Example.world) !! Example.asha_id = None /\
  (forall k l,
     leaves (after (deleteStudent (env := Example.reliable) Example.asha_id)
               Example.world) !! k = Some l ->
     Leave.studentId l <> Example.asha_id) /\
  (forall k c,
     complaints (after (deleteStudent (env := Example.reliable)
                          Example.asha_id) Example.world) !! k = Some c ->
     ~ refers_to c Example.asha_id).
Proof.
  destruct (delete_student_cascades (env := Example.reliable) Example.world
              Example.asha_id Example.asha)
    as (Hres & _ & Hgone & Hleaves & Hcomplaints).
  - exact example_reliable.
  - reflexivity.
  - reflexivity.
  - reflexivity.
  - split; [exact Hres|]. split; [exact Hgone|]. split.
    + intros k l Hl. apply Hleaves in Hl. tauto.
    + intros k c Hc. apply Hcomplaints in Hc. tauto.
Defined.

(** * Further properties of the handlers *)

(** ** Removing the link between a student and a parent *)

Lemma pull_not_elem x l : x ∉ pull x l.
Proof. unfold pull. rewrite list_elem_of_filter. tauto. Qed.

Lemma pull_absent x l : x ∉ l -> pull x l = l.
Proof.
  unfold pull. induction l as [|y l IH]; [done|].
  rewrite not_elem_of_cons. intros [Hne Hl].
  rewrite filter_cons_True by congruence. by rewrite IH.
Qed.

Lemma pull_addToSet x l : x ∉ l -> pull x (addToSet x l) = l.
Proof.
  intros H. unfold addToSet. rewrite bool_decide_eq_false_2 by done.
  unfold pull. rewrite filter_app. fold (pull x l). rewrite (pull_absent _ _ H).
  rewrite filter_cons_False by (intros Hx; by apply Hx).
  rewrite filter_nil. apply app_nil_r.
Qed.

Lemma elem_of_pull (x c : string) (l : list string) :
  c ∈ pull x l <-> c ∈ l /\ c <> x.
Proof. unfold pull. rewrite list_elem_of_filter. tauto. Qed.

Section RemoveParent.
Context {env : Env}.

Lemma removeParentFromStudent_run w sid s pid :
  Reliable env -> ObjectId_isValid sid = true ->
  users (db w) !! ObjectId_hex sid = Some s -> User.role s = Role.student ->
  User.parentId s = Some pid ->
  run (removeParentFromStudent sid) w
  = (Some (json 200 "Parent-student relationship removed successfully"),
     mkWorld (unlinked (db w) (ObjectId_hex sid) pid) (session w)).
Proof.
  intros Hrel Hid Hs Hrole Hp.
  unfold removeParentFromStudent, run, try_catch.
  unfold bind at 1. unfold User_findOne, await, cast_ObjectId.
  rewrite Hrel, Hid. cbn. rewrite Hs, (proj2 (Role_eqb_eq _ _) Hrole), Hp.
  unfold User_updateOne, User_save, await. rewrite !Hrel. reflexivity.
Qed.

(** X1: [removeParentFromStudent], for a stored student that has a parent
    and in a run without database failures, answers 200; afterwards the
    student has no [parentId], the [children] of the user that it named
    are those of before without the student's id, and nothing else has
    changed: not in these two users, in no other user, in no leave and in
    no complaint. *)
Theorem remove_parent_unlinks w sid s pid :
  Reliable env -> ObjectId_isValid sid = true ->
  users (db w) !! ObjectId_hex sid = Some s -> User.role s = Role.student ->
  User.parentId s = Some pid ->
  fst (run (removeParentFromStudent sid) w)
  = Some (json 200 "Parent-student relationship removed successfully") /\
  (exists s',
     users (after (removeParentFromStudent sid) w) !! ObjectId_hex sid
     = Some s' /\
     User.parentId s' = None /\ same_profile s s' /\
     (pid <> ObjectId_hex sid -> User.children s' = User.children s)) /\
  (forall p, pid <> ObjectId_hex sid -> users (db w) !! pid = Some p ->
     exists p',
       users (after (removeParentFromStudent sid) w) !! pid = Some p' /\
       (forall c, c ∈ User.children p' <->
                  c ∈ User.children p /\ c <> ObjectId_hex sid) /\
       User.parentId p' = User.parentId p /\ same_profile p p') /\
  (forall k, k <> ObjectId_hex sid -> k <> pid ->
     users (after (removeParentFromStudent sid) w) !! k = users (db w) !! k) /\
  leaves (after (removeParentFromStudent sid) w) = leaves (db w) /\
  complaints (after (removeParentFromStudent sid) w) = complaints (db w).
Proof.
  intros Hrel Hid Hs Hrole Hp. unfold after.
  rewrite (removeParentFromStudent_run w sid s pid) by done. cbn.
  split; [done|]. split; [|split; [|split; [|done]]].
  - rewrite lookup_alter_eq.
    destruct (decide (pid = ObjectId_hex sid)) as [->|Hne].
    + rewrite lookup_alter_eq, Hs. cbn.
      eexists. split; [reflexivity|]. split; [reflexivity|].
      split; [by repeat split | done].
    + rewrite lookup_alter_ne, Hs by done. cbn.
      eexists. split; [reflexivity|]. split; [reflexivity|].
      split; [by repeat split | done].
  - intros p Hne Hpid.
    rewrite lookup_alter_ne, lookup_alter_eq, Hpid by done. cbn.
    eexists. split; [reflexivity|].
    split; [intros c; apply elem_of_pull|]. split; [reflexivity|].
    by repeat split.
  - intros k H1 H2. by rewrite !lookup_alter_ne.
Qed.

(** X2: removing undoes assigning.  When a student without a parent is
    assigned to a parent whose [children] do not hold the student, and the
    link is then removed, the database is the one of before. *)
Theorem assign_then_remove_restores w sid pid s p :
  Reliable env -> Assignable (db w) sid pid s p ->
  ObjectId_hex sid ∉ User.children p ->
  after (removeParentFromStudent sid)
    (world_after (assignParentToStudent (Some sid) (Some pid)) w)
  = db w.
Proof.
  intros Hrel Ha Hnew. unfold world_after.
  rewrite (assignParentToStudent_links w sid pid s p) by done. cbn [snd].
  destruct (linked_visible _ _ _ _ _ Ha) as (Hs' & Hp' & _).
  pose proof Ha as (Hvs & Hvp & _ & _ & Hs & Hrs & Hnone & Hp & Hrp).
  assert (ObjectId_hex sid <> ObjectId_hex pid) as Hne
    by (intros E; rewrite E in Hs; congruence).
  unfold after.
  rewrite (removeParentFromStudent_run _ sid
             (User.set_parentId (Some (ObjectId_hex pid)) s)
             (ObjectId_hex pid)) by done.
  cbn. unfold unlinked, linked. cbn.
  destruct (db w) as [us ls cs] eqn:Hd. cbn in *. f_equal.
  apply map_eq. intros k.
  destruct (decide (k = ObjectId_hex sid)) as [->|Hks].
  - rewrite lookup_alter_eq,
      !(lookup_alter_ne _ _ (ObjectId_hex pid) (ObjectId_hex sid)) by done.
    rewrite lookup_alter_eq, Hs. cbn. f_equal.
    destruct s; cbn in *. by subst.
  - rewrite (lookup_alter_ne _ _ (ObjectId_hex sid) k) by done.
    destruct (decide (k = ObjectId_hex pid)) as [->|Hkp].
    + rewrite !lookup_alter_eq, lookup_alter_ne, Hp by done. cbn. f_equal.
      fold (pull (ObjectId_hex sid)
              (addToSet (ObjectId_hex sid) (User.children p))).
      rewrite (pull_addToSet _ _ Hnew). by destruct p.
    + by rewrite !lookup_alter_ne.
Qed.

(** X3: [removeParentFromStudent] is not all-or-nothing.  Its two writes run
    outside a transaction: when the save of the student (line 156) fails
    after the update of the parent (line 149), the answer is 500, the
    parent's [children] are those of before without the student's id, and
    the student is stored as before, with its [parentId]. *)
Theorem remove_parent_half_done w sid s pid p :
  fails (admin_controller 133) = false ->
  fails (admin_controller 149) = false ->
  fails (admin_controller 156) = true ->
  ObjectId_isValid sid = true ->
  users (db w) !! ObjectId_hex sid = Some s -> User.role s = Role.student ->
  User.parentId s = Some pid -> pid <> ObjectId_hex sid ->
  users (db w) !! pid = Some p ->
  (exists r, fst (run (removeParentFromStudent sid) w) = Some r /\
     statusCode r = 500) /\
  users (after (removeParentFromStudent sid) w) !! ObjectId_hex sid
  = Some s /\
  exists p',
    users (after (removeParentFromStudent sid) w) !! pid = Some p' /\
    (ObjectId_hex sid ∉ User.children p') /\
    (forall c, c ∈ User.children p' <->
               c ∈ User.children p /\ c <> ObjectId_hex sid).
Proof.
  intros H1 H2 H3 Hid Hs Hrole Hp Hne Hpid. unfold after.
  unfold_more. rewrite H1, Hid. cbn. rewrite Hs, (proj2 (Role_eqb_eq _ _) Hrole).
  rewrite Hp, H2. cbn. rewrite H3. cbn.
  split; [eexists; split; [reflexivity | done]|].
  split; [by rewrite lookup_alter_ne|].
  rewrite lookup_alter_eq, Hpid. cbn. eexists. split; [reflexivity|]. cbn.
  split; [apply pull_not_elem | intros c; apply elem_of_pull].
Qed.

(** X4: the refusals of [removeParentFromStudent].  A well-formed id under
    which no student is stored is answered 404, a student without a
    parent 400, and neither writes. *)
Theorem remove_parent_refusals w sid :
  Reliable env -> ObjectId_isValid sid = true ->
  ((forall s, users (db w) !! ObjectId_hex sid = Some s ->
      User.role s <> Role.student) ->
   run (removeParentFromStudent sid) w
   = (Some (json 404 "Student not found"), w)) /\
  (forall s, users (db w) !! ObjectId_hex sid = Some s ->
   User.role s = Role.student ->
   User.parentId s = None ->
   run (removeParentFromStudent sid) w
   = (Some (json 400 "Student doesn't have a parent assigned"), w)).
Proof.
  intros Hrel Hid. split.
  - intros Hno. unfold_more. rewrite Hrel, Hid. cbn.
    destruct (users (db w) !! ObjectId_hex sid) as [s|] eqn:Hs; [|done].
    destruct (Role.eqb (User.role s) Role.student) eqn:E; [|done].
    apply Role_eqb_eq in E. by destruct (Hno s).
  - intros s Hs Hrole Hp. unfold_more. rewrite Hrel, Hid. cbn.
    by rewrite Hs, (proj2 (Role_eqb_eq _ _) Hrole), Hp.
Qed.

(** X5: whatever the request and whichever calls fail,
    [removeParentFromStudent] changes no leave and no complaint, and no
    user other than the student that the id of the request stands for and
    the user that the student's [parentId] names. *)
Theorem remove_parent_frame w sid :
  leaves (after (removeParentFromStudent sid) w) = leaves (db w) /\
  complaints (after (removeParentFromStudent sid) w) = complaints (db w) /\
  forall k, k <> ObjectId_hex sid ->
    (forall s, users (db w) !! ObjectId_hex sid = Some s ->
       User.parentId s <> Some k) ->
    users (after (removeParentFromStudent sid) w) !! k = users (db w) !! k.
Proof.
  unfold after. unfold_more. exec; try done.
  all: split; [done|]; split; [done|]; intros k Hk Hnot.
  all: rewrite ?lookup_alter_ne; try done.
  all: intros ->; eapply Hnot; eauto.
Qed.
End RemoveParent.

(** On the example: the link between [asha] and [meera] is removed; [asha]
    has no parent and [meera], who had [asha] for child, has not. *)
Lemma remove_parent_unlinks_witness :
  Example.asha_id ∈ User.children Example.meera /\
  exists s' p',
    users (after (removeParentFromStudent (env := Example.reliable)
                    Example.asha_id) Example.world) !! Example.asha_id
    = Some s' /\
    User.parentId s' = None /\
    users (after (removeParentFromStudent (env := Example.reliable)
                    Example.asha_id) Example.world) !! Example.meera_id
    = Some p' /\
    Example.asha_id ∉ User.children p'.
Proof.
  split; [apply elem_of_cons; by left|].
  destruct (remove_parent_unlinks (env := Example.reliable) Example.world
              Example.asha_id Example.asha Example.meera_id)
    as (_ & (s' & Hs' & Hnone & _) & Hparent & _).
  - exact example_reliable.
  - reflexivity.
  - reflexivity.
  - reflexivity.
  - reflexivity.
  - destruct (Hparent Example.meera) as (p' & Hp' & Hchildren & _).
    + discriminate.
    + reflexivity.
    + exists s', p'. split; [exact Hs'|]. split; [exact Hnone|].
      split; [exact Hp'|]. intros Hin. apply Hchildren in Hin as [_ Hne].
      by apply Hne.
Defined.

(** On the example: [ravi] is assigned to [meera] and the link removed. *)
Lemma assign_then_remove_restores_witness :
  after (removeParentFromStudent (env := Example.reliable) Example.ravi_id)
    (world_after (assignParentToStudent (env := Example.reliable)
                    (Some Example.ravi_id) (Some Example.meera_id))
       Example.world)
  = Example.database.
Proof.
  apply (assign_then_remove_restores (env := Example.reliable) Example.world
           Example.ravi_id Example.meera_id Example.ravi Example.meera).
  - exact example_reliable.
  - exact (example_assignable Example.no_failure).
  - apply not_elem_of_cons. split; [discriminate | apply not_elem_of_nil].
Defined.

(** On the example: the save of [asha] fails; [meera] has lost the child
    and [asha] keeps the parent. *)
Lemma remove_parent_half_done_witness :
  Example.asha_id ∈ User.children Example.meera /\
  User.parentId <$>
    users (after (removeParentFromStudent
                    (env := Scenario.failing_at [admin_controller 156])
                    Example.asha_id) Example.world) !! Example.asha_id
  = Some (Some Example.meera_id) /\
  exists p',
    users (after (removeParentFromStudent
                    (env := Scenario.failing_at [admin_controller 156])
                    Example.asha_id) Example.world) !! Example.meera_id
    = Some p' /\
    Example.asha_id ∉ User.children p'.
Proof.
  split; [apply elem_of_cons; by left|].
  destruct (remove_parent_half_done
              (env := Scenario.failing_at [admin_controller 156])
              Example.world Example.asha_id Example.asha Example.meera_id
              Example.meera)
    as (_ & Hstudent & p' & Hparent & Hgone & _).
  - reflexivity.
  - reflexivity.
  - reflexivity.
  - reflexivity.
  - reflexivity.
  - reflexivity.
  - reflexivity.
  - discriminate.
  - reflexivity.
  - split; [exact (f_equal (fmap User.parentId) Hstudent)|].
    exists p'. split; [exact Hparent | exact Hgone].
Defined.

(** On the example: [ravi] has no parent, and [meera] is no student, under
    either spelling of the id. *)
Lemma remove_parent_refusals_witness :
  run (removeParentFromStudent (env := Example.reliable) Example.ravi_id)
    Example.world
  = (Some (json 400 "Student doesn't have a parent assigned"),
     Example.world) /\
  run (removeParentFromStudent (env := Example.reliable)
         "64B7F0A1C2D3E4F5A6B7C803") Example.world
  = (Some (json 404 "Student not found"), Example.world).
Proof.
  split.
  - destruct (remove_parent_refusals (env := Example.reliable) Example.world
                Example.ravi_id example_reliable eq_refl) as [_ H].
    apply (H Example.ravi); reflexivity.
  - destruct (remove_parent_refusals (env := Example.reliable) Example.world
                "64B7F0A1C2D3E4F5A6B7C803" example_reliable eq_refl)
      as [H _].
    apply H. intros s Hs. vm_compute in Hs. injection Hs as <-. discriminate.
Defined.

(** On the example: removing the parent of [asha] does not change
    [ravi]. *)
Lemma remove_parent_frame_witness :
  users (after (removeParentFromStudent (env := Example.reliable)
                  Example.asha_id) Example.world) !! Example.ravi_id
  = Some Example.ravi.
Proof.
  destruct (remove_parent_frame (env := Example.reliable) Example.world
              Example.asha_id) as (_ & _ & H).
  rewrite (H Example.ravi_id).
  - reflexivity.
  - discriminate.
  - intros s Hs. vm_compute in Hs. injection Hs as <-. discriminate.
Defined.

(** ** Deleting a parent, a staff member, a leave *)

Section Deletes.
Context {env : Env}.

Lemma deleteParent_run w id p :
  Reliable env -> ObjectId_isValid id = true ->
  users (db w) !! ObjectId_hex id = Some p -> User.role p = Role.parent ->
  run (deleteParent id) w
  = (Some (json 200 "Parent deleted successfully"),
     mkWorld
       (mkDb (delete (ObjectId_hex id)
                (map_imap (fun k u =>
                   Some (if bool_decide (k ∈ User.children p)
                         then User.set_parentId None u else u))
                   (users (db w))))
          (filter (fun kv => Leave.studentId kv.2 <> ObjectId_hex id)
             (leaves (db w)))
          (filter
             (fun kv => ~ Complaint_matches "studentId" (ObjectId_hex id) kv.2)
             (complaints (db w))))
       (session w)).
Proof.
  intros Hrel Hid Hp Hrole.
  unfold deleteParent, run, try_catch.
  unfold bind at 1. unfold User_findOne, await, cast_ObjectId.
  rewrite Hrel, Hid. cbn. rewrite Hp, (proj2 (Role_eqb_eq _ _) Hrole).
  unfold User_updateMany, User_deleteOne, userSchema_pre_deleteOne,
    Leave_deleteMany, Complaint_deleteMany, await, try_catch.
  rewrite !Hrel.
  destruct (User.children p) as [|c cs] eqn:Hc; cbn; [|done].
  do 4 f_equal. apply map_eq. intros k.
  rewrite map_lookup_imap. destruct (users (db w) !! k); [|done]. cbn.
  rewrite bool_decide_eq_false_2; [done|]. apply not_elem_of_nil.
Qed.

(** X6: [deleteParent], for a stored parent and in a run without database
    failures, answers 200, deletes the parent, clears the [parentId] of
    every user listed in the parent's [children] and of no other user, and
    the hook of the user model deletes the leaves whose [studentId] is the
    parent's id and no other leave. *)
Theorem delete_parent_clears_children w id p :
  Reliable env -> ObjectId_isValid id = true ->
  users (db w) !! ObjectId_hex id = Some p -> User.role p = Role.parent ->
  fst (run (deleteParent id) w) = Some (json 200 "Parent deleted successfully") /\
  users (after (deleteParent id) w) !! ObjectId_hex id = None /\
  (forall k u, k <> ObjectId_hex id -> users (db w) !! k = Some u ->
     users (after (deleteParent id) w) !! k
     = Some (if bool_decide (k ∈ User.children p)
             then User.set_parentId None u else u)) /\
  (forall k l, leaves (after (deleteParent id) w) !! k = Some l <->
     leaves (db w) !! k = Some l /\ Leave.studentId l <> ObjectId_hex id).
Proof.
  intros Hrel Hid Hp Hrole. unfold after.
  rewrite (deleteParent_run w id p) by done. cbn.
  split; [done|]. split; [apply lookup_delete_eq|]. split.
  - intros k u Hk Hu. rewrite lookup_delete_ne, map_lookup_imap, Hu by done.
    done.
  - intros k l. rewrite map_lookup_filter_Some. cbn. tauto.
Qed.

(** X7: [deleteStaff], for a stored staff member and in a run without
    database failures, answers 200 and deletes that user and no other; the
    hook of the user model runs for staff as well and deletes the leaves
    whose [studentId] is the deleted id, and no other leave. *)
Theorem delete_staff_removes_one w id u :
  Reliable env -> ObjectId_isValid id = true ->
  users (db w) !! ObjectId_hex id = Some u -> User.role u = Role.staff ->
  fst (run (deleteStaff id) w) = Some (json 200 "staff deleted successfully") /\
  users (after (deleteStaff id) w)
  = delete (ObjectId_hex id) (users (db w)) /\
  (forall k l, leaves (after (deleteStaff id) w) !! k = Some l <->
     leaves (db w) !! k = Some l /\ Leave.studentId l <> ObjectId_hex id).
Proof.
  intros Hrel Hid Hu Hrole. unfold after. unfold_more.
  rewrite !Hrel, Hid. cbn. rewrite Hu, (proj2 (Role_eqb_eq _ _) Hrole). cbn.
  split; [done|]. split; [done|].
  intros k l. rewrite map_lookup_filter_Some. cbn. tauto.
Qed.

(** X8: [deleteleavebyid] in a run without database failures.  A
    well-formed id under which no leave is stored is answered 404 and
    nothing is written.  An id under which a leave is stored is answered
    200; that leave and no other is deleted, no user and no complaint
    changes; and from then on both [deleteleavebyid] and [getleavesbyId]
    answer 404 for the id. *)
Theorem delete_leave_by_id w id :
  Reliable env -> ObjectId_isValid id = true -> id <> "" ->
  (leaves (db w) !! ObjectId_hex id = None ->
   run (deleteleavebyid id) w = (Some (json 404 "leave not found"), w)) /\
  (is_Some (leaves (db w) !! ObjectId_hex id) ->
   fst (run (deleteleavebyid id) w)
   = Some (json 200 "leave deleted successfully") /\
   leaves (after (deleteleavebyid id) w)
   = delete (ObjectId_hex id) (leaves (db w)) /\
   users (after (deleteleavebyid id) w) = users (db w) /\
   complaints (after (deleteleavebyid id) w) = complaints (db w) /\
   run (deleteleavebyid id) (world_after (deleteleavebyid id) w)
   = (Some (json 404 "leave not found"), world_after (deleteleavebyid id) w) /\
   run (getleavesbyId id) (world_after (deleteleavebyid id) w)
   = (Some (json 404 "Leave not found"), world_after (deleteleavebyid id) w)).
Proof.
  intros Hrel Hid Hne. split.
  - intros Hnone. unfold_more. rewrite Hrel, Hid. cbn. by rewrite Hnone.
  - intros [l Hl]. unfold after, world_after. unfold_more.
    rewrite !Hrel, Hid. cbn. rewrite Hl. cbn.
    rewrite lookup_delete_eq, (proj2 (String.eqb_neq _ _) Hne). cbn.
    rewrite lookup_delete_eq. done.
Qed.

(** X9: the lookups by id.  [getstudentbyid], [getstaffbyid] and
    [getParentbyid] answer with the stored user of that id whatever its
    role, so each of them returns students, staff and parents alike;
    [getleavesbyId] answers with the document of the stored leave; and
    none of the four writes, whichever calls fail. *)
Theorem lookups_by_id w id :
  (forall u, Reliable env -> ObjectId_isValid id = true ->
     users (db w) !! ObjectId_hex id = Some u ->
     run (getstudentbyid id) w
     = (Some (mkResponse 200 "" (user_payload (Some u))), w) /\
     run (getstaffbyid id) w
     = (Some (mkResponse 200 "" (user_payload (Some u))), w) /\
     run (getParentbyid id) w
     = (Some (mkResponse 200 "" (user_payload (Some u))), w)) /\
  (forall l, Reliable env -> ObjectId_isValid id = true -> id <> "" ->
     leaves (db w) !! ObjectId_hex id = Some l ->
     run (getleavesbyId id) w
     = (Some (mkResponse 200 "" (leave_payload (Leave_hydrate l))), w)) /\
  world_after (getstudentbyid id) w = w /\
  world_after (getstaffbyid id) w = w /\
  world_after (getParentbyid id) w = w /\
  world_after (getleavesbyId id) w = w.
Proof.
  split; [|split].
  - intros u Hrel Hid Hu. unfold_more. rewrite !Hrel, Hid. cbn.
    by rewrite Hu.
  - intros l Hrel Hid Hne Hl. unfold_more.
    rewrite (proj2 (String.eqb_neq _ _) Hne), Hrel, Hid. cbn. by rewrite Hl.
  - unfold world_after. unfold_more. repeat split; exec; done.
Qed.

(** X10: [deleteStudent] does not touch the parent.  After a student that
    is listed in the [children] of a stored parent is deleted, the parent's
    [children] still hold the id of the deleted student. *)
Theorem delete_student_leaves_dangling_child w id u pid p :
  Reliable env -> ObjectId_isValid id = true ->
  users (db w) !! ObjectId_hex id = Some u -> User.role u = Role.student ->
  pid <> ObjectId_hex id -> users (db w) !! pid = Some p ->
  ObjectId_hex id ∈ User.children p ->
  users (after (deleteStudent id) w) !! ObjectId_hex id = None /\
  exists p', users (after (deleteStudent id) w) !! pid = Some p' /\
    ObjectId_hex id ∈ User.children p'.
Proof.
  intros Hrel Hid Hu Hrole Hne Hp Hin. unfold after.
  rewrite (deleteStudent_run w id u) by done. cbn.
  split; [apply lookup_delete_eq|].
  exists p. by rewrite lookup_delete_ne.
Qed.

End Deletes.

(** On the example: [meera] is deleted and [asha] has no parent any
    more. *)
Lemma delete_parent_clears_children_witness :
  users (after (deleteParent (env := Example.reliable) Example.meera_id)
           Example.world) !! Example.meera_id = None /\
  User.parentId <$>
    users (after (deleteParent (env := Example.reliable) Example.meera_id)
             Example.world) !! Example.asha_id = Some None.
Proof.
  destruct (delete_parent_clears_children (env := Example.reliable)
              Example.world Example.meera_id Example.meera)
    as (_ & Hgone & Hothers & _).
  - exact example_reliable.
  - reflexivity.
  - reflexivity.
  - reflexivity.
  - split; [exact Hgone|].
    rewrite (Hothers Example.asha_id Example.asha);
      [reflexivity | discriminate | reflexivity].
Defined.

(** On the example: [kiran] is deleted. *)
Lemma delete_staff_removes_one_witness :
  users (after (deleteStaff (env := Example.reliable) Example.kiran_id)
           Example.world)
  = delete Example.kiran_id (users Example.database).
Proof.
  destruct (delete_staff_removes_one (env := Example.reliable) Example.world
              Example.kiran_id Example.kiran) as (_ & Husers & _).
  - exact example_reliable.
  - reflexivity.
  - reflexivity.
  - reflexivity.
  - exact Husers.
Defined.

(** On the example: [leave1] is deleted, and is not found afterwards. *)
Lemma delete_leave_by_id_witness :
  leaves (after (deleteleavebyid (env := Example.reliable) Example.leave1_id)
            Example.world)
  = delete Example.leave1_id (leaves Example.database) /\
  fst (run (getleavesbyId (env := Example.reliable) Example.leave1_id)
         (world_after (deleteleavebyid (env := Example.reliable)
                         Example.leave1_id) Example.world))
  = Some (json 404 "Leave not found").
Proof.
  destruct (delete_leave_by_id (env := Example.reliable) Example.world
              Example.leave1_id) as [_ H].
  - exact example_reliable.
  - reflexivity.
  - discriminate.
  - destruct H as (_ & Hleaves & _ & _ & _ & Hget).
    + exists Example.leave1. reflexivity.
    + split; [exact Hleaves|]. rewrite Hget. reflexivity.
Defined.

(** On the example: [getstaffbyid] answers with the student [asha]. *)
Lemma lookups_by_id_witness :
  run (getstaffbyid (env := Example.reliable) Example.asha_id) Example.world
  = (Some (mkResponse 200 "" (user_payload (Some Example.asha))),
     Example.world).
Proof.
  destruct (lookups_by_id (env := Example.reliable) Example.world
              Example.asha_id) as [H _].
  destruct (H Example.asha) as (_ & Hstaff & _).
  - exact example_reliable.
  - reflexivity.
  - reflexivity.
  - exact Hstaff.
Defined.

(** On the example: [asha] is deleted and [meera] still lists [asha]. *)
Lemma delete_student_leaves_dangling_child_witness :
  exists p',
    users (after (deleteStudent (env := Example.reliable) Example.asha_id)
             Example.world) !! Example.meera_id = Some p' /\
    Example.asha_id ∈ User.children p'.
Proof.
  destruct (delete_student_leaves_dangling_child (env := Example.reliable)
              Example.world Example.asha_id Example.asha Example.meera_id
              Example.meera) as [_ H].
  - exact example_reliable.
  - reflexivity.
  - reflexivity.
  - reflexivity.
  - discriminate.
  - reflexivity.
  - apply elem_of_cons. left. reflexivity.
  - exact H.
Defined.

(** ** More on the parent's review *)

Section MoreParentReview.
Context {env : Env}.

(** Runs [reviewLeave] up to the location checks, for a reviewable
    request, given that the two lookups do not fail. *)
Ltac enter_lookup H260 H265 Hrv Hact :=
  let Htruthy := fresh "Htruthy" in
  let Hpid := fresh "Hpid" in
  let Hparent := fresh "Hparent" in
  let Hrole := fresh "Hrole" in
  let Hlid := fresh "Hlid" in
  let Hleave := fresh "Hleave" in
  let Hchild := fresh "Hchild" in
  destruct Hrv as [Htruthy Hpid Hparent Hrole Hlid Hleave Hchild];
  cbn [db users leaves] in Hparent, Hleave;
  unfold reviewLeave, run, try_catch;
  rewrite (js_not_Some _ Htruthy), Hact; cbn [negb default from_option id];
  unfold bind at 1; unfold User_findOne, await; rewrite H260;
  unfold cast_ObjectId; rewrite Hpid; cbn; rewrite Hparent;
  rewrite (proj2 (Role_eqb_eq _ _) Hrole);
  unfold bind at 1; unfold Leave_findOne, await; rewrite H265;
  unfold cast_ObjectId; rewrite Hlid; cbn; rewrite Hleave;
  rewrite (bool_decide_eq_true_2 _ Hchild);
  rewrite parent_location_check;
  unfold ObjectId_new; rewrite Hpid.

(** ... and past them, when both locations are well formed. *)
Ltac enter_decision H260 H265 Hrv Hact Hcur Hloc :=
  let H1 := fresh "H" in
  let H2 := fresh "H" in
  destruct (well_formed_leave_checks _ Hloc) as [H1 H2];
  enter_lookup H260 H265 Hrv Hact;
  rewrite (Leave_hydrate_well_formed _ Hloc), Hcur; cbn [negb];
  rewrite H1, H2.

Lemma reviewLeave_stores w pid lid p l action remarks cur :
  Reliable env -> Reviewable w pid lid p l ->
  Leave.status l = pending ->
  includes ["approve"; "reject"] action = true ->
  well_formed cur = true ->
  well_formed (Leave.leaveLocation l) = true ->
  (calculateDistance (coords cur) (coords (Leave.leaveLocation l)) <? 5)%float
    && js_eq action "approve" = false ->
  run (reviewLeave (Some pid) lid action remarks cur) w
  = (Some (mkResponse 200 (action_ed action "by parent")
             (leave_payload (reviewed (ObjectId_hex pid) action remarks l))),
     with_leave w (ObjectId_hex lid)
       (reviewed (ObjectId_hex pid) action remarks l)).
Proof.
  intros Hrel Hrv Hst Hact Hcur Hloc Hd.
  enter_decision (Hrel (parent_controller 260)) (Hrel (parent_controller 265))
    Hrv Hact Hcur Hloc.
  fold (coords cur). fold (coords (Leave.leaveLocation l)).
  rewrite Hd, Hst. cbn [Status_eqb negb].
  unfold Leave_save, await. rewrite !Hrel.
  unfold with_leave, reviewed, decided.
  change (staff_approved (Leave.set_parentReview ?r l))
    with (staff_approved l).
  apply includes_action in Hact as [-> | ->];
    destruct (staff_approved l) eqn:Hs; cbn;
    rewrite ?insert_insert_eq; reflexivity.
Qed.

Lemma decided_status pid action remarks l :
  includes ["approve"; "reject"] action = true ->
  Leave.status (decided pid action remarks l)
  = (if js_eq action "reject" then rejected
     else if staff_approved l then approved else pending).
Proof.
  intros [-> | ->]%includes_action; unfold decided;
    change (staff_approved (Leave.set_parentReview ?r l))
      with (staff_approved l);
    destruct (staff_approved l); reflexivity.
Qed.

Lemma decided_fields pid action remarks l :
  Leave.studentId (decided pid action remarks l) = Leave.studentId l /\
  Leave.leaveLocation (decided pid action remarks l) = Leave.leaveLocation l /\
  Leave.staffReview (decided pid action remarks l) = Leave.staffReview l /\
  Leave.parentReview (decided pid action remarks l)
  = Some (Review.mk (action_status action) (default "" remarks)
            (Some pid) (Some Date_now)).
Proof.
  unfold decided.
  destruct (_ && _); [|destruct (js_eq action "reject")]; done.
Qed.

Lemma reviewed_fields pid action remarks l :
  Leave.studentId (reviewed pid action remarks l) = Leave.studentId l /\
  Leave.status (reviewed pid action remarks l)
  = Leave.status (decided pid action remarks l) /\
  Leave.staffReview (reviewed pid action remarks l) = Leave.staffReview l /\
  Leave.parentReview (reviewed pid action remarks l)
  = Some (Review.mk (action_status action) (default "" remarks)
            (Some pid) (Some Date_now)) /\
  Leave.leaveLocation (reviewed pid action remarks l)
  = (if Status_eqb (Leave.status (decided pid action remarks l)) pending
     then Leave.leaveLocation l else loc_falsy).
Proof.
  destruct (decided_fields pid action remarks l) as (H1 & H2 & H3 & H4).
  unfold reviewed.
  destruct (Leave.status (decided pid action remarks l)) eqn:E; cbn;
    rewrite ?E; done.
Qed.

Lemma with_leave_reviewable w pid lid p l l' :
  Reviewable w pid lid p l -> Leave.studentId l' = Leave.studentId l ->
  Reviewable (with_leave w (ObjectId_hex lid) l') pid lid p l'.
Proof.
  intros [] Hs. split; cbn; try done.
  - apply lookup_insert_eq.
  - by rewrite Hs.
Qed.

(** X11: once a review by the parent has made a pending leave terminal
    (a reject, or an approve of a leave that staff has approved), every
    later review of that leave by the parent is answered with the error
    for the coordinates of the leave's location, and changes nothing: the
    first review has cleared the location that the second one checks
    before it looks at the status. *)
Theorem finalised_leave_rejects_later_reviews
    w pid lid p l action remarks cur action2 remarks2 cur2 :
  Reliable env -> Reviewable w pid lid p l ->
  Leave.status l = pending ->
  includes ["approve"; "reject"] action = true ->
  well_formed cur = true ->
  well_formed (Leave.leaveLocation l) = true ->
  (calculateDistance (coords cur) (coords (Leave.leaveLocation l)) <? 5)%float
    && js_eq action "approve" = false ->
  action = Some "reject" \/
  Review.status <$> Leave.staffReview l = Some approved ->
  includes ["approve"; "reject"] action2 = true ->
  well_formed cur2 = true ->
  run (reviewLeave (Some pid) lid action2 remarks2 cur2)
    (world_after (reviewLeave (Some pid) lid action remarks cur) w)
  = (Some (json 400 "Leave location coordinates are missing or invalid"),
     world_after (reviewLeave (Some pid) lid action remarks cur) w).
Proof.
  intros Hrel Hrv Hst Hact Hcur Hloc Hd Hfinal Hact2 Hcur2.
  unfold world_after.
  rewrite (reviewLeave_stores w pid lid p l) by done. cbn [snd].
  destruct (reviewed_fields (ObjectId_hex pid) action remarks l)
    as (Hsid & _ & _ & _ & Hl).
  assert (Leave.leaveLocation (reviewed (ObjectId_hex pid) action remarks l)
          = loc_falsy) as Hgone.
  { rewrite Hl, decided_status by done.
    destruct Hfinal as [-> | Hs%staff_approved_true]; [done|].
    rewrite Hs. by destruct (js_eq action "reject"). }
  apply (reviewLeave_cleared _ pid lid p
           (reviewed (ObjectId_hex pid) action remarks l)); try done.
  - by apply (with_leave_reviewable w pid lid p l).
  - by rewrite Hgone.
Qed.

Lemma with_leave_twice w lid l1 l2 :
  with_leave (with_leave w lid l1) lid l2 = with_leave w lid l2.
Proof. unfold with_leave. cbn. by rewrite insert_insert_eq. Qed.

(** X12: while the leave stays pending the parent may review it again.
    After an approve of a leave that staff has not approved, a second
    review is carried out like a first one: its action decides the status
    and its review replaces the stored review of the parent. *)
Theorem pending_leave_can_be_reviewed_again
    w pid lid p l remarks cur action2 remarks2 cur2 :
  Reliable env -> Reviewable w pid lid p l ->
  Leave.status l = pending ->
  well_formed cur = true ->
  well_formed (Leave.leaveLocation l) = true ->
  (calculateDistance (coords cur) (coords (Leave.leaveLocation l)) <? 5)%float
  = false ->
  Review.status <$> Leave.staffReview l <> Some approved ->
  includes ["approve"; "reject"] action2 = true ->
  well_formed cur2 = true ->
  (calculateDistance (coords cur2) (coords (Leave.leaveLocation l)) <? 5)%float
    && js_eq action2 "approve" = false ->
  exists l2,
    run (reviewLeave (Some pid) lid action2 remarks2 cur2)
      (world_after (reviewLeave (Some pid) lid (Some "approve") remarks cur) w)
    = (Some (mkResponse 200 (action_ed action2 "by parent")
               (leave_payload l2)),
       with_leave w (ObjectId_hex lid) l2) /\
    Leave.status l2 = (if js_eq action2 "reject" then rejected else pending) /\
    Leave.parentReview l2
    = Some (Review.mk (action_status action2) (default "" remarks2)
              (Some (ObjectId_hex pid)) (Some Date_now)).
Proof.
  intros Hrel Hrv Hst Hcur Hloc Hd Hstaff Hact2 Hcur2 Hd2.
  assert (staff_approved l = false) as Hs.
  { destruct (staff_approved l) eqn:E; [|done].
    by apply staff_approved_true in E. }
  unfold world_after.
  rewrite (reviewLeave_stores w pid lid p l) by (try done; by rewrite Hd).
  cbn [snd].
  set (l1 := reviewed (ObjectId_hex pid) (Some "approve") remarks l).
  destruct (reviewed_fields (ObjectId_hex pid) (Some "approve") remarks l)
    as (Hsid & Hst1 & Hsr1 & _ & Hl1).
  rewrite decided_status in Hst1, Hl1 by done. rewrite Hs in Hst1, Hl1.
  cbn in Hst1, Hl1. fold l1 in Hsid, Hst1, Hsr1, Hl1.
  pose proof (with_leave_reviewable w pid lid p l l1 Hrv Hsid) as Hrv'.
  rewrite (reviewLeave_stores _ pid lid p l1);
    [|done..| by rewrite Hl1 | by rewrite Hl1].
  rewrite with_leave_twice. eexists. split; [reflexivity|].
  destruct (reviewed_fields (ObjectId_hex pid) action2 remarks2 l1)
    as (_ & -> & _ & -> & _).
  rewrite decided_status by done.
  assert (staff_approved l1 = false) as ->.
  { unfold staff_approved. rewrite Hsr1. exact Hs. }
  done.
Qed.

(** X13: whatever the request and whichever calls fail, [reviewLeave]
    changes no user, no complaint and no leave other than the one that the
    id of the request stands for, and of that leave at most the parent's
    review, the status and the location: the request of the student and
    the review of the staff are as they were. *)
Theorem review_changes_only_parent_review
    w parentId lid action remarks cur :
  users (after (reviewLeave parentId lid action remarks cur) w)
  = users (db w) /\
  complaints (after (reviewLeave parentId lid action remarks cur) w)
  = complaints (db w) /\
  (forall k, k <> ObjectId_hex lid ->
     leaves (after (reviewLeave parentId lid action remarks cur) w) !! k
     = leaves (db w) !! k) /\
  (forall l',
     leaves (after (reviewLeave parentId lid action remarks cur) w)
       !! ObjectId_hex lid = Some l' ->
     exists l, leaves (db w) !! ObjectId_hex lid = Some l /\
       same_request l l' /\ Leave.staffReview l' = Leave.staffReview l).
Proof.
  unfold after. unfold_handler. exec.
  all: split; [done|]; split; [done|]; split.
  all: try (intros k Hk; by rewrite ?lookup_insert_ne).
  all: intros l'; rewrite ?lookup_insert_eq; intros Hl'; simplify_eq.
  all: eexists; (split; [first [eassumption | reflexivity]|]).
  all: unfold same_request; repeat split.
Qed.

(** X14: [reviewLeave] saves twice when the leave becomes terminal (lines
    334 and 337).  When the second save, the one that clears the
    location, fails, the answer is 500 and the leave stays stored as the
    first save left it: terminal, and with its location. *)
Theorem review_second_save_failure w pid lid p l action remarks cur :
  fails (parent_controller 260) = false ->
  fails (parent_controller 265) = false ->
  fails (parent_controller 334) = false ->
  fails (parent_controller 337) = true ->
  Reviewable w pid lid p l ->
  Leave.status l = pending ->
  includes ["approve"; "reject"] action = true ->
  well_formed cur = true ->
  well_formed (Leave.leaveLocation l) = true ->
  (calculateDistance (coords cur) (coords (Leave.leaveLocation l)) <? 5)%float
    && js_eq action "approve" = false ->
  action = Some "reject" \/
  Review.status <$> Leave.staffReview l = Some approved ->
  run (reviewLeave (Some pid) lid action remarks cur) w
  = (Some (json 500 "Failed to review leave"),
     with_leave w (ObjectId_hex lid)
       (decided (ObjectId_hex pid) action remarks l)) /\
  Terminal (Leave.status (decided (ObjectId_hex pid) action remarks l)) /\
  Leave.leaveLocation (decided (ObjectId_hex pid) action remarks l)
  = Leave.leaveLocation l /\
  ~ I1 (decided (ObjectId_hex pid) action remarks l).
Proof.
  intros H260 H265 H334 H337 Hrv Hst Hact Hcur Hloc Hd Hfinal.
  destruct (decided_fields (ObjectId_hex pid) action remarks l)
    as (_ & Hl & _ & _).
  assert (Terminal
            (Leave.status (decided (ObjectId_hex pid) action remarks l)))
    as Hterm.
  { rewrite decided_status by done. unfold Terminal.
    destruct Hfinal as [-> | Hs%staff_approved_true]; [by right|].
    rewrite Hs. destruct (js_eq action "reject"); auto. }
  split; [|split; [done|split; [done|]]].
  - assert (js_eq action "reject" || staff_approved l = true) as Hfin.
    { destruct Hfinal as [-> | Hs%staff_approved_true]; [done|].
      rewrite Hs. apply orb_true_r. }
    enter_decision H260 H265 Hrv Hact Hcur Hloc.
    fold (coords cur). fold (coords (Leave.leaveLocation l)).
    rewrite Hd, Hst. cbn [Status_eqb negb].
    unfold Leave_save, await. rewrite H334, H337.
    unfold with_leave, decided.
    change (staff_approved (Leave.set_parentReview ?r l))
      with (staff_approved l).
    apply includes_action in Hact as [-> | ->];
      destruct (staff_approved l) eqn:Hs; cbn in Hfin |- *;
      try discriminate; reflexivity.
  - unfold I1. rewrite Hl. intros [H _].
    specialize (H (well_formed_present _ Hloc)).
    destruct Hterm as [E | E]; congruence.
Qed.

(** X15: who may review.  A request without a caller is answered 401; a
    caller whose id is not the id of a stored parent is answered 404; and
    so is a parent asking for a leave that is not stored under the id of
    the request or is not the leave of one of the parent's children.
    Nothing is written. *)
Theorem review_is_for_the_parent_of_the_student
    w parentId lid action remarks cur :
  (js_not parentId = true ->
   run (reviewLeave parentId lid action remarks cur) w
   = (Some (json 401 "Unauthorized"), w)) /\
  (forall pid,
     Reliable env -> parentId = Some pid -> pid <> "" ->
     includes ["approve"; "reject"] action = true ->
     ObjectId_isValid pid = true ->
     (forall u, users (db w) !! ObjectId_hex pid = Some u ->
        User.role u <> Role.parent) ->
     run (reviewLeave parentId lid action remarks cur) w
     = (Some (json 404 "Parent not found"), w)) /\
  (forall pid p,
     Reliable env -> parentId = Some pid -> pid <> "" ->
     includes ["approve"; "reject"] action = true ->
     ObjectId_isValid pid = true ->
     users (db w) !! ObjectId_hex pid = Some p ->
     User.role p = Role.parent ->
     ObjectId_isValid lid = true ->
     (forall l, leaves (db w) !! ObjectId_hex lid = Some l ->
        Leave.studentId l ∉ User.children p) ->
     run (reviewLeave parentId lid action remarks cur) w
     = (Some (json 404 "Leave not found or unauthorized"), w)).
Proof.
  split; [|split].
  - intros H. unfold reviewLeave, run, try_catch. by rewrite H.
  - intros pid Hrel -> Hne Hact Hpid Hno.
    unfold reviewLeave, run, try_catch.
    rewrite (js_not_Some _ Hne), Hact. cbn [negb default from_option id].
    unfold bind at 1. unfold User_findOne, await, cast_ObjectId.
    rewrite Hrel, Hpid. cbn.
    destruct (users (db w) !! ObjectId_hex pid) as [u|] eqn:Hu; [|done].
    destruct (Role.eqb (User.role u) Role.parent) eqn:E; [|done].
    apply Role_eqb_eq in E. by destruct (Hno u).
  - intros pid p Hrel -> Hne Hact Hpid Hp Hrole Hlid Hno.
    unfold reviewLeave, run, try_catch.
    rewrite (js_not_Some _ Hne), Hact. cbn [negb default from_option id].
    unfold bind at 1. unfold User_findOne, await, cast_ObjectId.
    rewrite Hrel, Hpid. cbn. rewrite Hp, (proj2 (Role_eqb_eq _ _) Hrole).
    unfold bind at 1. unfold Leave_findOne, await, cast_ObjectId.
    rewrite Hrel, Hlid. cbn.
    destruct (leaves (db w) !! ObjectId_hex lid) as [l|] eqn:Hl; [|done].
    rewrite bool_decide_eq_false_2 by auto. done.
Qed.

End MoreParentReview.

Section MoreAdmin.
Context {env : Env}.

(** X16: overriding twice is overriding once.  An override by an admin
    after another override of the same leave gives the response and the
    database that it gives without the earlier one. *)
Theorem admin_override_last_decision_wins
    w admin1 admin2 leaveId action1 action2 l :
  Reliable env ->
  ObjectId_isValid admin1 = true -> ObjectId_isValid admin2 = true ->
  includes ["approve"; "reject"] action1 = true ->
  includes ["approve"; "reject"] action2 = true ->
  ObjectId_isValid leaveId = true ->
  leaves (db w) !! ObjectId_hex leaveId = Some l ->
  run (leaveAdminApprove (Some admin2) leaveId action2)
    (world_after (leaveAdminApprove (Some admin1) leaveId action1) w)
  = run (leaveAdminApprove (Some admin2) leaveId action2) w.
Proof.
  intros Hrel Ha1 Ha2 Hact1 Hact2 Hid Hl. unfold world_after.
  rewrite (leaveAdminApprove_found w admin1 leaveId action1 l) by done.
  cbn [snd].
  rewrite (leaveAdminApprove_found _ admin2 leaveId action2
             (admin_set action1 (ObjectId_hex admin1) (ObjectId_hex admin1)
                l))
    by (try done; apply lookup_insert_eq).
  rewrite (leaveAdminApprove_found w admin2 leaveId action2 l) by done.
  cbn. by rewrite insert_insert_eq.
Qed.

(** X17: a student who has a parent cannot be assigned again.  After a
    successful assignment, a further assignment of the same student to any
    stored parent is answered 400 and the link stays as it is. *)
Theorem second_assignment_is_refused w sid pid s p pid2 p2 :
  Reliable env -> Assignable (db w) sid pid s p ->
  pid2 <> "" -> ObjectId_isValid pid2 = true ->
  users (db w) !! ObjectId_hex pid2 = Some p2 -> User.role p2 = Role.parent ->
  fst (run (assignParentToStudent (Some sid) (Some pid2))
         (world_after (assignParentToStudent (Some sid) (Some pid)) w))
  = Some (json 400 "Student already has a parent assigned") /\
  after (assignParentToStudent (Some sid) (Some pid2))
    (world_after (assignParentToStudent (Some sid) (Some pid)) w)
  = linked (db w) (ObjectId_hex sid) (ObjectId_hex pid).
Proof.
  intros Hrel Ha Hne2 Hv2 Hp2 Hr2. unfold world_after, after.
  rewrite (assignParentToStudent_links w sid pid s p) by done. cbn [snd].
  destruct (linked_visible _ _ _ _ _ Ha) as (Hs' & Hp' & _).
  destruct Ha as (Hvs & Hvp & Hsid & Hpid & Hs & Hrs & Hnone & Hp & Hrp).
  assert (exists p2',
            users (linked (db w) (ObjectId_hex sid) (ObjectId_hex pid))
              !! ObjectId_hex pid2 = Some p2' /\
            User.role p2' = Role.parent) as (p2' & Hp2' & Hr2').
  { destruct (decide (ObjectId_hex pid2 = ObjectId_hex pid)) as [E|Hne].
    - rewrite E. eexists. split; [exact Hp'|]. done.
    - exists p2. split; [|done]. unfold linked. cbn.
      rewrite !lookup_alter_ne; [done| |done]. congruence. }
  unfold_handler. rewrite !Hrel. cbn.
  rewrite (proj2 (String.eqb_neq _ _) Hsid), (proj2 (String.eqb_neq _ _) Hne2).
  cbn. rewrite Hvs, Hv2. cbn.
  unfold linked in Hs', Hp2'. cbn in Hs', Hp2'. rewrite Hs', Hp2'. cbn.
  rewrite Hrs, Hr2'. cbn. done.
Qed.

End MoreAdmin.

(** On the example: [meera] rejects [leave1], and then tries to approve
    it. *)
Lemma finalised_leave_rejects_later_reviews_witness :
  fst (run (reviewLeave (env := Example.reliable) (Some Example.meera_id)
              Example.leave1_id (Some "approve") None Example.far_from_home)
         (world_after
            (reviewLeave (env := Example.reliable) (Some Example.meera_id)
               Example.leave1_id (Some "reject") (Some "not now")
               Example.far_from_home) Example.world))
  = Some (json 400 "Leave location coordinates are missing or invalid").
Proof.
  rewrite (finalised_leave_rejects_later_reviews (env := Example.reliable)
             Example.world Example.meera_id Example.leave1_id Example.meera
             Example.leave1 (Some "reject") (Some "not now")
             Example.far_from_home (Some "approve") None
             Example.far_from_home).
  - reflexivity.
  - exact example_reliable.
  - apply example_reviewable; reflexivity.
  - reflexivity.
  - reflexivity.
  - reflexivity.
  - reflexivity.
  - vm_compute. reflexivity.
  - left. reflexivity.
  - reflexivity.
  - reflexivity.
Defined.

(** On the example: [meera] approves [leave1], which staff has not
    reviewed, and then rejects it. *)
Lemma pending_leave_can_be_reviewed_again_witness :
  exists l2,
    fst (run (reviewLeave (env := Example.reliable) (Some Example.meera_id)
                Example.leave1_id (Some "reject") None Example.near_home)
           (world_after
              (reviewLeave (env := Example.reliable) (Some Example.meera_id)
                 Example.leave1_id (Some "approve") None
                 Example.far_from_home) Example.world))
    = Some (mkResponse 200 "Leave rejected by parent" (leave_payload l2)) /\
    Leave.status l2 = rejected.
Proof.
  destruct (pending_leave_can_be_reviewed_again (env := Example.reliable)
              Example.world Example.meera_id Example.leave1_id Example.meera
              Example.leave1 None Example.far_from_home (Some "reject") None
              Example.near_home) as (l2 & Hrun & Hstatus & _).
  - exact example_reliable.
  - apply example_reviewable; reflexivity.
  - reflexivity.
  - reflexivity.
  - reflexivity.
  - vm_compute. reflexivity.
  - discriminate.
  - reflexivity.
  - reflexivity.
  - vm_compute. reflexivity.
  - exists l2. rewrite Hrun. split; [reflexivity | exact Hstatus].
Defined.

(** On the example: [meera] rejects [leave1] under the upper-case spelling
    of its id; [leave2] is as it was. *)
Lemma review_changes_only_parent_review_witness :
  leaves (after (reviewLeave (env := Example.reliable) (Some Example.meera_id)
                   "64B7F0A1C2D3E4F5A6B7C811" (Some "reject") None
                   Example.far_from_home) Example.world) !! Example.leave2_id
  = Some Example.leave2.
Proof.
  destruct (review_changes_only_parent_review (env := Example.reliable)
              Example.world (Some Example.meera_id)
              "64B7F0A1C2D3E4F5A6B7C811" (Some "reject") None
              Example.far_from_home) as (_ & _ & H & _).
  rewrite H; [reflexivity | discriminate].
Defined.

(** On the example: [meera] rejects [leave1] and the second save fails;
    the stored leave is rejected and still has its location. *)
Lemma review_second_save_failure_witness :
  exists l',
    run (reviewLeave (env := Scenario.failing_at [parent_controller 337])
           (Some Example.meera_id) Example.leave1_id (Some "reject") None
           Example.far_from_home) Example.world
    = (Some (json 500 "Failed to review leave"),
       with_leave Example.world Example.leave1_id l') /\
    Leave.status l' = rejected /\
    Leave.leaveLocation l' = Example.home.
Proof.
  destruct (review_second_save_failure
              (env := Scenario.failing_at [parent_controller 337])
              Example.world Example.meera_id Example.leave1_id Example.meera
              Example.leave1 (Some "reject") None Example.far_from_home)
    as (Hrun & _ & Hloc & _).
  - reflexivity.
  - reflexivity.
  - reflexivity.
  - reflexivity.
  - apply example_reviewable; reflexivity.
  - reflexivity.
  - reflexivity.
  - reflexivity.
  - reflexivity.
  - vm_compute. reflexivity.
  - left. reflexivity.
  - eexists. split; [exact Hrun|]. split; [reflexivity | exact Hloc].
Defined.

(** On the example: the admin [root] is no parent. *)
Lemma review_is_for_the_parent_of_the_student_witness :
  run (reviewLeave (env := Example.reliable) (Some Example.root_id)
         Example.leave1_id (Some "approve") None Example.far_from_home)
    Example.world
  = (Some (json 404 "Parent not found"), Example.world).
Proof.
  destruct (review_is_for_the_parent_of_the_student (env := Example.reliable)
              Example.world (Some Example.root_id) Example.leave1_id
              (Some "approve") None Example.far_from_home) as (_ & H & _).
  apply (H Example.root_id).
  - exact example_reliable.
  - reflexivity.
  - discriminate.
  - reflexivity.
  - reflexivity.
  - intros u Hu. vm_compute in Hu. injection Hu as <-. discriminate.
Defined.

(** On the example: [root] approves [leave1] and then rejects it. *)
Lemma admin_override_last_decision_wins_witness :
  run (leaveAdminApprove (env := Example.reliable) (Some Example.root_id)
         Example.leave1_id (Some "reject"))
    (world_after (leaveAdminApprove (env := Example.reliable)
                    (Some Example.root_id) Example.leave1_id
                    (Some "approve")) Example.world)
  = run (leaveAdminApprove (env := Example.reliable) (Some Example.root_id)
           Example.leave1_id (Some "reject")) Example.world.
Proof.
  apply (admin_override_last_decision_wins (env := Example.reliable)
           Example.world Example.root_id Example.root_id Example.leave1_id
           (Some "approve") (Some "reject") Example.leave1).
  - exact example_reliable.
  - reflexivity.
  - reflexivity.
  - reflexivity.
  - reflexivity.
  - reflexivity.
  - reflexivity.
Defined.

(** On the example: [ravi] is assigned to [meera], twice. *)
Lemma second_assignment_is_refused_witness :
  fst (run (assignParentToStudent (env := Example.reliable)
              (Some Example.ravi_id) (Some Example.meera_id))
         (world_after (assignParentToStudent (env := Example.reliable)
                         (Some Example.ravi_id) (Some Example.meera_id))
            Example.world))
  = Some (json 400 "Student already has a parent assigned").
Proof.
  apply (second_assignment_is_refused (env := Example.reliable) Example.world
           Example.ravi_id Example.meera_id Example.ravi Example.meera
           Example.meera_id Example.meera).
  - exact example_reliable.
  - exact (example_assignable Example.no_failure).
  - discriminate.
  - reflexivity.
  - reflexivity.
  - reflexivity.
Defined.

(** ** The handlers and the schemas *)

Section WrittenLeaves.
Context {env : Env}.

(** X18: the handlers write no pending leave without coordinates.  A leave
    for which the leave schema requires [leaveLocation.coordinates], and
    which was not stored before under an id, is stored under that id by
    [reviewLeave] only with a [coordinates] array of two elements, and is
    never stored by [leaveAdminApprove]; for every request and whichever
    calls fail. *)
Theorem written_leaves_have_required_coordinates w lid k l' :
  leaveSchema_coordinates_required l' = true ->
  leaves (db w) !! k <> Some l' ->
  (forall parentId action remarks cur,
     leaves (after (reviewLeave parentId lid action remarks cur) w) !! k
     = Some l' ->
     well_formed (Leave.leaveLocation l') = true) /\
  (forall adminId action,
     leaves (after (leaveAdminApprove adminId lid action) w) !! k
     <> Some l').
Proof.
  intros Hreq Hnew. split.
  - intros parentId action remarks cur. revert Hnew.
    unfold after. unfold_handler. exec; try done.
    all: rewrite ?insert_insert_eq.
    all: destruct (decide (k = ObjectId_hex lid)) as [->|Hk];
      [|rewrite ?lookup_insert_ne by done; congruence].
    all: rewrite ?lookup_insert_eq.
    all: intros Hnew Hl'; simplify_eq; try done.
    all: cbn in *.
    all: repeat match goal with
         | H : _ || _ = false |- _ => apply orb_false_elim in H as [? ?]
         | H : negb _ = false |- _ => apply negb_false_iff in H
         end.
    all: match goal with
         | H : Nat.eqb (coords_length (coordinates_of
                 (Leave.leaveLocation (Leave_hydrate ?t)))) 2 = true
           |- well_formed (Leave.leaveLocation (Leave_hydrate ?t)) = true =>
             rewrite Leave_hydrate_location in *;
             destruct (Leave.leaveLocation t) as [| |[| |a]];
             cbn in *; try discriminate; done
         end.
  - intros adminId action. revert Hnew.
    unfold after. unfold_handler. exec; try done.
    all: destruct (decide (k = ObjectId_hex lid)) as [->|Hk];
      [|rewrite ?lookup_alter_ne by done; congruence].
    all: intros Hnew Hl'; try congruence.
    all: cbn in *; rewrite ?lookup_alter_eq in Hl'; try congruence.
    all: match goal with
         | H : leaves (db _) !! _ = Some _ |- _ => rewrite H in Hl'
         end.
    all: cbn in Hl'; simplify_eq.
    all: match goal with
         | H : negb (js_eq ?a "approve" || _) = false |- _ =>
             apply negb_false_iff in H;
             change (includes ["approve"; "reject"] a = true) in H;
             apply includes_action in H as [-> | ->]
         end.
    all: discriminate.
Qed.
End WrittenLeaves.

(** On the example: [meera] approves [leave1], which stays pending, and
    the stored leave has its coordinates. *)
Lemma written_leaves_have_required_coordinates_witness :
  well_formed
    (Leave.leaveLocation
       (reviewed (env := Example.reliable) Example.meera_id (Some "approve")
          None Example.leave1))
  = true.
Proof.
  destruct (written_leaves_have_required_coordinates
              (env := Example.reliable) Example.world Example.leave1_id
              Example.leave1_id
              (reviewed (env := Example.reliable) Example.meera_id
                 (Some "approve") None Example.leave1)) as [H _].
  - reflexivity.
  - vm_compute. discriminate.
  - apply (H (Some Example.meera_id) (Some "approve") None
             Example.far_from_home).
    vm_compute. reflexivity.
Defined.

Lemma forallb_const_pull (b : bool) x (l : list string) :
  forallb (fun _ => b) l = true -> forallb (fun _ => b) (pull x l) = true.
Proof.
  destruct b.
  - intros _. apply forallb_forall. done.
  - destruct l; [done | discriminate].
Qed.

Lemma validators_accept_unlinked u :
  validators_accept u = true ->
  validators_accept (User.set_parentId None u) = true.
Proof.
  unfold validators_accept, userSchema_parentId_validator.
  intros [_ H]%andb_prop. exact H.
Qed.

Lemma validators_accept_pull x u :
  validators_accept u = true ->
  validators_accept (User.set_children (pull x (User.children u)) u) = true.
Proof.
  unfold validators_accept.
  intros [H1 H2]%andb_prop. apply andb_true_intro. split; [exact H1|].
  apply forallb_const_pull. exact H2.
Qed.

Lemma validators_accept_student pid u :
  User.role u = Role.student -> validators_accept u = true ->
  validators_accept (User.set_parentId (Some pid) u) = true.
Proof.
  unfold validators_accept, userSchema_parentId_validator.
  intros Hr [_ H]%andb_prop. apply andb_true_intro. split; [|exact H].
  cbn. by rewrite Hr.
Qed.

Lemma validators_accept_parent sid u :
  User.role u = Role.parent -> validators_accept u = true ->
  validators_accept (User.set_children (addToSet sid (User.children u)) u)
  = true.
Proof.
  unfold validators_accept, userSchema_children_validator.
  intros Hr [H _]%andb_prop. apply andb_true_intro. split; [exact H|].
  cbn. rewrite Hr. apply forallb_forall. done.
Qed.

Lemma valid_alter (m : gmap string User.t) k f :
  (forall j u, m !! j = Some u -> validators_accept u = true) ->
  (forall u, m !! k = Some u -> validators_accept (f u) = true) ->
  forall j u, alter f k m !! j = Some u -> validators_accept u = true.
Proof.
  intros Hm Hf j u.
  destruct (decide (j = k)) as [->|Hne].
  - rewrite lookup_alter_eq. destruct (m !! k) eqn:E; [|done].
    cbn. intros [= <-]. by apply Hf.
  - rewrite lookup_alter_ne by done. apply Hm.
Qed.

Lemma valid_alter_any (m : gmap string User.t) k f :
  (forall u, validators_accept u = true -> validators_accept (f u) = true) ->
  (forall j u, m !! j = Some u -> validators_accept u = true) ->
  forall j u, alter f k m !! j = Some u -> validators_accept u = true.
Proof. intros Hf Hm. apply valid_alter; eauto. Qed.

Lemma valid_imap (m : gmap string User.t) (c : string -> bool) f :
  (forall u, validators_accept u = true -> validators_accept (f u) = true) ->
  (forall j u, m !! j = Some u -> validators_accept u = true) ->
  forall j u,
    map_imap (fun k u => Some (if c k then f u else u)) m !! j = Some u ->
    validators_accept u = true.
Proof.
  intros Hf Hm j u. rewrite map_lookup_imap.
  destruct (m !! j) as [v|] eqn:E; [|done]. cbn.
  intros [= <-]. destruct (c j); eauto.
Qed.

Lemma valid_delete (m : gmap string User.t) k :
  (forall j u, m !! j = Some u -> validators_accept u = true) ->
  forall j u, delete k m !! j = Some u -> validators_accept u = true.
Proof. intros Hm j u [_ H]%lookup_delete_Some. eauto. Qed.

Section ValidUsers.
Context {env : Env}.

(** X19: the handlers that link, unlink and delete users keep the users
    acceptable to the validators of the user schema, although their
    updates do not run them.  If every stored user passes the validators of
    [parentId] (only a student has a parent) and of [children] (only a
    parent has children), then so does every user stored after
    [assignParentToStudent], [removeParentFromStudent], [deleteParent],
    [deleteStudent] and [deleteStaff], for every request and whichever
    calls fail. *)
Theorem handlers_keep_users_valid w :
  users_valid (db w) ->
  (forall studentId parentId,
     users_valid (after (assignParentToStudent studentId parentId) w)) /\
  (forall studentId,
     users_valid (after (removeParentFromStudent studentId) w)) /\
  (forall id, users_valid (after (deleteParent id) w)) /\
  (forall id, users_valid (after (deleteStudent id) w)) /\
  (forall id, users_valid (after (deleteStaff id) w)).
Proof.
  intros Hw. split; [|split; [|split; [|split]]].
  - intros studentId parentId.
    destruct (assignParentToStudent_outcomes w studentId parentId)
      as [E | (sid & pid & s & p & _ & _ & Ha & _ & _ & _ & E)];
      unfold after; rewrite E; [done|].
    destruct Ha as (_ & _ & _ & _ & Hs & Hrs & _ & Hp & Hrp).
    assert (ObjectId_hex sid <> ObjectId_hex pid) as Hne
      by (intros Heq; rewrite Heq in Hs; congruence).
    unfold linked, users_valid. cbn.
    apply valid_alter; [apply valid_alter; [exact Hw|]|].
    + intros u Hu. apply validators_accept_student; [congruence|].
      by apply (Hw (ObjectId_hex sid)).
    + rewrite lookup_alter_ne by done. intros u Hu.
      apply validators_accept_parent; [congruence|].
      by apply (Hw (ObjectId_hex pid)).
  - intros sid. unfold after. unfold_more. exec; try done.
    all: unfold users_valid; cbn.
    all: repeat first
           [ apply valid_alter_any;
             [first [ exact validators_accept_unlinked
                    | intros u; apply validators_accept_pull ]|]
           | exact Hw ].
  - intros id. unfold after. unfold_more. exec; try done.
    all: unfold users_valid; cbn.
    all: repeat first
           [ apply valid_delete
           | apply (valid_imap _ (fun k => bool_decide (k ∈ _)));
             [exact validators_accept_unlinked|]
           | exact Hw ].
  - intros id. unfold after. unfold_handler. exec; try done.
    all: unfold users_valid; cbn.
    all: repeat first [ apply valid_delete | exact Hw ].
  - intros id. unfold after. unfold_more. exec; try done.
    all: unfold users_valid; cbn.
    all: repeat first [ apply valid_delete | exact Hw ].
Qed.
End ValidUsers.

Lemma example_users_valid : users_valid Example.database.
Proof.
  intros k u. unfold Example.database. cbn.
  rewrite !lookup_insert. repeat case_decide; try done.
  all: intros [= <-]; reflexivity.
Qed.

(** On the example: the users are acceptable after [ravi] is assigned to
    [meera] while the commit fails, and after [asha] is unlinked. *)
Lemma handlers_keep_users_valid_witness :
  users_valid
    (after (assignParentToStudent
              (env := Scenario.failing_at [admin_controller 99])
              (Some Example.ravi_id) (Some Example.meera_id))
       Example.world) /\
  users_valid
    (after (removeParentFromStudent
              (env := Scenario.failing_at [admin_controller 99])
              Example.asha_id) Example.world).
Proof.
  destruct (handlers_keep_users_valid
              (env := Scenario.failing_at [admin_controller 99])
              Example.world example_users_valid) as (Hassign & Hremove & _).
  split; [apply Hassign | apply Hremove].
Defined.

(** ** Deletions that fail half-way, and what no deletion touches *)

Section PartialDeletes.
Context {env : Env}.

(** X20: [deleteStudent] is not all-or-nothing.  When the hook of the user
    model fails (line 233) the [deleteOne] of the student is rejected: the
    answer is 500 and the student stays stored, while the two
    [deleteMany] of the controller have already removed the student's
    leaves and the complaints that its filter selects. *)
Theorem delete_student_hook_failure w id u :
  fails (admin_controller 541) = false ->
  fails (admin_controller 549) = false ->
  fails (admin_controller 552) = false ->
  fails (user_model 233) = true ->
  ObjectId_isValid id = true ->
  users (db w) !! ObjectId_hex id = Some u -> User.role u = Role.student ->
  (exists r, fst (run (deleteStudent id) w) = Some r /\ statusCode r = 500) /\
  users (after (deleteStudent id) w) = users (db w) /\
  (forall k l, leaves (after (deleteStudent id) w) !! k = Some l <->
     leaves (db w) !! k = Some l /\ Leave.studentId l <> ObjectId_hex id) /\
  (forall k c, complaints (after (deleteStudent id) w) !! k = Some c <->
     complaints (db w) !! k = Some c /\
     ~ Complaint_matches "student" (ObjectId_hex id) c).
Proof.
  intros H541 H549 H552 H233 Hid Hu Hrole. unfold after. unfold_handler.
  rewrite H541, Hid. cbn. rewrite Hu, (proj2 (Role_eqb_eq _ _) Hrole).
  rewrite H549, H552. cbn. rewrite H233. cbn.
  split; [eexists; split; [reflexivity | done]|]. split; [done|]. split.
  - intros k l. rewrite map_lookup_filter_Some. cbn. tauto.
  - intros k c. rewrite map_lookup_filter_Some. cbn. tauto.
Qed.

(** X21: [deleteParent] is not all-or-nothing.  When the removal of the
    parent (line 335) fails after the [updateMany] of the children, the
    answer is 500, the parent stays stored as it was, with its
    [children], and every stored child among them has no [parentId] any
    more, and is otherwise as it was. *)
Theorem delete_parent_half_done w id p :
  fails (admin_controller 319) = false ->
  fails (admin_controller 329) = false ->
  fails (user_model 233) = false ->
  fails (user_model 234) = false ->
  fails (admin_controller 335) = true ->
  ObjectId_isValid id = true ->
  users (db w) !! ObjectId_hex id = Some p -> User.role p = Role.parent ->
  User.children p <> [] -> ObjectId_hex id ∉ User.children p ->
  (exists r, fst (run (deleteParent id) w) = Some r /\ statusCode r = 500) /\
  users (after (deleteParent id) w) !! ObjectId_hex id = Some p /\
  (forall k u, k ∈ User.children p -> users (db w) !! k = Some u ->
     exists u',
       users (after (deleteParent id) w) !! k = Some u' /\
       User.parentId u' = None /\
       User.children u' = User.children u /\ same_profile u u').
Proof.
  intros H319 H329 H233 H234 H335 Hid Hp Hrole Hch Hself. unfold after.
  unfold_more. rewrite H319, Hid. cbn.
  rewrite Hp, (proj2 (Role_eqb_eq _ _) Hrole).
  destruct (User.children p) as [|c cs] eqn:Hc; [done|]. cbn.
  rewrite H329. cbn. rewrite H233. cbn. rewrite H234. cbn. rewrite H335. cbn.
  split; [eexists; split; [reflexivity | done]|]. split.
  - rewrite map_lookup_imap, Hp. cbn.
    by rewrite bool_decide_eq_false_2.
  - intros k u Hk Hu. rewrite map_lookup_imap, Hu. cbn.
    rewrite bool_decide_eq_true_2 by done.
    eexists. split; [reflexivity|]. by repeat split.
Qed.

(** X22: what the deletions do not touch, for every request and whichever
    calls fail.  [deleteStudent] and [deleteStaff] change no user other
    than the one that the id of the request stands for, keep every leave
    whose [studentId] is not that id, and add no user, leave or complaint;
    [deleteleavebyid] changes no leave other than the one that the id
    stands for, and no user and no complaint. *)
Theorem deletes_only_delete w id :
  ((forall k, k <> ObjectId_hex id ->
      users (after (deleteStudent id) w) !! k = users (db w) !! k) /\
   (forall k l, leaves (db w) !! k = Some l ->
      Leave.studentId l <> ObjectId_hex id ->
      leaves (after (deleteStudent id) w) !! k = Some l) /\
   users (after (deleteStudent id) w) ⊆ users (db w) /\
   leaves (after (deleteStudent id) w) ⊆ leaves (db w) /\
   complaints (after (deleteStudent id) w) ⊆ complaints (db w)) /\
  ((forall k, k <> ObjectId_hex id ->
      users (after (deleteStaff id) w) !! k = users (db w) !! k) /\
   (forall k l, leaves (db w) !! k = Some l ->
      Leave.studentId l <> ObjectId_hex id ->
      leaves (after (deleteStaff id) w) !! k = Some l) /\
   users (after (deleteStaff id) w) ⊆ users (db w) /\
   leaves (after (deleteStaff id) w) ⊆ leaves (db w) /\
   complaints (after (deleteStaff id) w) ⊆ complaints (db w)) /\
  ((forall k, k <> ObjectId_hex id ->
      leaves (after (deleteleavebyid id) w) !! k = leaves (db w) !! k) /\
   leaves (after (deleteleavebyid id) w) ⊆ leaves (db w) /\
   users (after (deleteleavebyid id) w) = users (db w) /\
   complaints (after (deleteleavebyid id) w) = complaints (db w)).
Proof.
  assert (forall (m : gmap string Leave.t) k l,
            m !! k = Some l -> Leave.studentId l <> ObjectId_hex id ->
            filter (fun kv => Leave.studentId kv.2 <> ObjectId_hex id) m !! k
            = Some l)
    as Hkeep.
  { intros m k l Hl Hne. by apply map_lookup_filter_Some. }
  split; [|split].
  - unfold after. unfold_handler. exec.
    all: repeat split; try done.
    all: try (intros k Hk; by rewrite ?lookup_delete_ne).
    all: try (intros k l Hl Hne; by repeat apply Hkeep).
    all: repeat first
           [ reflexivity
           | apply delete_subseteq
           | etrans; [apply map_filter_subseteq|] ].
  - unfold after. unfold_more. exec.
    all: repeat split; try done.
    all: try (intros k Hk; by rewrite ?lookup_delete_ne).
    all: try (intros k l Hl Hne; by repeat apply Hkeep).
    all: repeat first
           [ reflexivity
           | apply delete_subseteq
           | etrans; [apply map_filter_subseteq|] ].
  - unfold after. unfold_more. exec.
    all: repeat split; try done.
    all: try (intros k Hk; by rewrite ?lookup_delete_ne).
    all: apply delete_subseteq.
Qed.
End PartialDeletes.

(** On the example: the hook fails while [asha] is deleted, and every user
    is still stored. *)
Lemma delete_student_hook_failure_witness :
  users (after (deleteStudent (env := Scenario.failing_at [user_model 233])
                  Example.asha_id) Example.world)
  = users Example.database.
Proof.
  destruct (delete_student_hook_failure
              (env := Scenario.failing_at [user_model 233]) Example.world
              Example.asha_id Example.asha) as (_ & Husers & _).
  - reflexivity.
  - reflexivity.
  - reflexivity.
  - reflexivity.
  - reflexivity.
  - reflexivity.
  - reflexivity.
  - exact Husers.
Defined.

(** On the example: the removal of [meera] fails; [meera] is still stored
    and [asha], whose parent [meera] was, has no parent. *)
Lemma delete_parent_half_done_witness :
  User.parentId Example.asha = Some Example.meera_id /\
  users (after (deleteParent
                  (env := Scenario.failing_at [admin_controller 335])
                  Example.meera_id) Example.world) !! Example.meera_id
  = Some Example.meera /\
  exists u',
    users (after (deleteParent
                    (env := Scenario.failing_at [admin_controller 335])
                    Example.meera_id) Example.world) !! Example.asha_id
    = Some u' /\
    User.parentId u' = None.
Proof.
  split; [reflexivity|].
  destruct (delete_parent_half_done
              (env := Scenario.failing_at [admin_controller 335])
              Example.world Example.meera_id Example.meera)
    as (_ & Hparent & Hchildren).
  - reflexivity.
  - reflexivity.
  - reflexivity.
  - reflexivity.
  - reflexivity.
  - reflexivity.
  - reflexivity.
  - reflexivity.
  - discriminate.
  - apply not_elem_of_cons. split; [discriminate | apply not_elem_of_nil].
  - split; [exact Hparent|].
    destruct (Hchildren Example.asha_id Example.asha)
      as (u' & Hu' & Hnone & _).
    + apply elem_of_cons. by left.
    + reflexivity.
    + exists u'. split; [exact Hu' | exact Hnone].
Defined.

(** On the example: [asha] is deleted under the upper-case spelling of the
    id, while the removal fails; [ravi] is as before. *)
Lemma deletes_only_delete_witness :
  users (after (deleteStudent
                  (env := Scenario.failing_at [admin_controller 555])
                  "64B7F0A1C2D3E4F5A6B7C801") Example.world)
    !! Example.ravi_id
  = users Example.database !! Example.ravi_id.
Proof.
  destruct (deletes_only_delete
              (env := Scenario.failing_at [admin_controller 555])
              Example.world "64B7F0A1C2D3E4F5A6B7C801") as ((H & _) & _).
  apply H. discriminate.
Defined.

(** ** The statistics of a child *)

Lemma count_by_status (ls : list Leave.t) :
  length ls
  = length (List.filter (fun l => Status_eqb (Leave.status l) pending) ls)
    + length (List.filter (fun l => Status_eqb (Leave.status l) approved) ls)
    + length (List.filter (fun l => Status_eqb (Leave.status l) rejected) ls).
Proof.
  induction ls as [|l ls IH]; [done|].
  cbn. destruct (Leave.status l); cbn; lia.
Qed.

Lemma length_filter_Permutation {A} (p : A -> bool) (l l' : list A) :
  l ≡ₚ l' -> length (List.filter p l) = length (List.filter p l').
Proof.
  induction 1 as [|x l l' _ IH|x y l|l l' l'' _ IH1 _ IH2]; cbn.
  - done.
  - destruct (p x); cbn; congruence.
  - destruct (p x), (p y); done.
  - congruence.
Qed.

Lemma length_filter_map_to_list {A} (p : A -> bool) (m : gmap string A) :
  length (List.filter p (map_to_list m).*2)
  = size (filter (fun kv => p kv.2 = true) m).
Proof.
  induction m as [|k x m Hk IH] using map_ind.
  - by rewrite map_to_list_empty, map_filter_empty, map_size_empty.
  - rewrite (length_filter_Permutation p _ (x :: (map_to_list m).*2))
      by (by rewrite map_to_list_insert).
    cbn. destruct (p x) eqn:E.
    + rewrite map_filter_insert_True by done.
      rewrite map_size_insert_None
        by (apply map_lookup_filter_None; by left).
      cbn. by rewrite IH.
    + rewrite map_filter_insert_False by (cbn; congruence).
      by rewrite delete_id.
Qed.

Lemma Leave_find_count (d : Db) sid s :
  length (List.filter (fun l => Status_eqb (Leave.status l) s)
            (map_to_list
               (filter (fun kv => Leave.studentId kv.2 = sid) (leaves d))).*2)
  = leaves_with d sid s.
Proof.
  rewrite length_filter_map_to_list. unfold leaves_with.
  rewrite map_filter_filter. f_equal. apply map_filter_ext.
  intros k l _. cbn. rewrite Status_eqb_eq. tauto.
Qed.

Section StatsProperties.
Context {env : Env}.

(** X23: the statistics that [getChildStats] computes for a child.  In a
    run without database failures [pendingLeaves] and [approvedLeaves] are
    the numbers of stored leaves of the child with these statuses, and
    [totalLeaves] is their sum plus the number of the child's rejected
    leaves, which the statistics do not report.  The computation writes
    nothing, whichever calls fail. *)
Theorem child_stats_count_by_status w child_id child :
  (Reliable env ->
   exists stats,
     getChildStats_child child_id child w = (Next stats, w) /\
     ChildStats.pendingLeaves stats = leaves_with (db w) child_id pending /\
     ChildStats.approvedLeaves stats = leaves_with (db w) child_id approved /\
     ChildStats.totalLeaves stats
     = ChildStats.pendingLeaves stats + ChildStats.approvedLeaves stats
       + leaves_with (db w) child_id rejected) /\
  snd (getChildStats_child child_id child w) = w.
Proof.
  split.
  - intros Hrel. eexists. split.
    + unfold getChildStats_child, Leave_find, await. rewrite Hrel. reflexivity.
    + cbn [ChildStats.pendingLeaves ChildStats.approvedLeaves
             ChildStats.totalLeaves].
      rewrite <- !Leave_find_count. split; [done|]. split; [done|].
      apply count_by_status.
  - unfold getChildStats_child, Leave_find, await, bind, get_db, ret, throw.
    by destruct (fails _).
Qed.
End StatsProperties.

(** On the example: [asha] has four leaves, two pending, one approved. *)
Lemma child_stats_count_by_status_witness :
  exists stats,
    getChildStats_child (env := Example.reliable) Example.asha_id
      Example.asha Example.world
    = (Next stats, Example.world) /\
    ChildStats.totalLeaves stats = 4 /\
    ChildStats.pendingLeaves stats = 2 /\
    ChildStats.approvedLeaves stats = 1.
Proof.
  destruct (child_stats_count_by_status (env := Example.reliable)
              Example.world Example.asha_id Example.asha) as [H _].
  destruct (H example_reliable) as (stats & Hrun & Hp & Ha & Ht).
  exists stats. split; [exact Hrun|].
  rewrite Ht, Hp, Ha. vm_compute. repeat split.
Defined.
